(** * Theme-park simulation entities: Attraction, Activity, Agent

    A shallow embedding of [attraction.py], [activity.py], [agent.py] and
    [behavior_reference.py], with the properties of the entities' per-tick
    operations.

    Conventions of the embedding.
    - Python [int] is [Z]; [int(x)] truncates towards zero.
    - In [attraction.py] a [float] is held as the rational it denotes, and
      every float operation rounds its exact result to binary64, ties to
      even ([Py.fl]); an int and a float are told apart where the code
      tells them apart ([Py.num]), as in the bound of a slice.
      [Attraction.capacity] is the float
      [hourly_throughput * (run_time / 60)].
    - In [activity.py] and [agent.py] a [float] is held as the rational it
      denotes; what the code does with floats there is to compare them, to
      truncate them, to take [max] and [min] and to add up the weights of
      a distribution, and these are taken exactly.
    - A method is a function from the object's state to an [outcome]: either
      it returns a value together with the state it leaves behind, or it
      raises, again with the state it leaves behind.
    - Draws of the process-wide generators ([random.uniform],
      [np.random.normal]) are explicit arguments: nothing in the program
      determines them.  Draws of [np.random.default_rng(seed)] are a function
      of the seed. *)

From Stdlib Require Import String.
From Stdlib Require Import ZArith QArith Qminmax List Permutation Bool Lia.
From Stdlib Require Import Lqa DecimalString Qround.
From Stdlib Require Qcanon.
Import ListNotations.

Set Implicit Arguments.
Set Warnings "-register-all".

(** ** Python values and built-ins used by the three classes *)

Module Py.

Inductive exn : Type :=
| ZeroDivisionError
| ValueError
| TypeError
| IndexError
| KeyError
| AttributeError
| AssertionError.

(** What a call on an object of state [S] does: the state is kept in both
    cases, since a raise leaves the mutations made before it. *)
Inductive outcome (S A : Type) : Type :=
| Returned (s : S) (v : A)
| Raised (e : exn) (s : S).

Arguments Returned {S A} s v.
Arguments Raised {S A} e s.

Definition state_of {S A} (o : outcome S A) : S :=
  match o with
  | Returned s _ => s
  | Raised _ s => s
  end.

Definition value_of {S A} (o : outcome S A) : option A :=
  match o with
  | Returned _ v => Some v
  | Raised _ _ => None
  end.

(** The result of a read-only computation. *)
Inductive res (A : Type) : Type :=
| Ok (v : A)
| Exn (e : exn).

Arguments Ok {A} v.
Arguments Exn {A} e.

(** [int(x)] on a float: truncation towards zero. *)
Definition int_of (x : Q) : Z := Z.quot (Qnum x) (Zpos (Qden x)).

(** [x < y] on floats. *)
Definition Qltb (x y : Q) : bool := negb (Qle_bool y x).

(** [max(x, 0)] and [max(x, 1)] on a float [x]: the first argument is kept
    unless the second is strictly greater. *)
Definition max_q (x y : Q) : Q := if Qltb x y then y else x.

(** Bound of a slice, as [list.__getitem__] normalises it: a negative bound
    counts from the end, and bounds are clipped to the list. *)
Definition slice_bound (k : Z) (len : nat) : nat :=
  if (k <? 0)%Z then Z.to_nat (Z.max (k + Z.of_nat len) 0)
  else Nat.min (Z.to_nat k) len.

(** [l[:k]] *)
Definition slice_to {A} (k : Z) (l : list A) : list A :=
  firstn (slice_bound k (length l)) l.

(** [l[k:]] *)
Definition slice_from {A} (k : Z) (l : list A) : list A :=
  skipn (slice_bound k (length l)) l.

(** [l.remove(x)]: drops the first occurrence, [ValueError] when absent. *)
Fixpoint list_remove (x : Z) (l : list Z) : option (list Z) :=
  match l with
  | [] => None
  | y :: l' =>
      if (y =? x)%Z then Some l'
      else match list_remove x l' with
           | Some r => Some (y :: r)
           | None => None
           end
  end.

(** [del l[i]]: [IndexError] when [i] is out of range. *)
Fixpoint list_del {A} (i : nat) (l : list A) : option (list A) :=
  match l, i with
  | [], _ => None
  | _ :: l', O => Some l'
  | y :: l', S j =>
      match list_del j l' with
      | Some r => Some (y :: r)
      | None => None
      end
  end.

(** *** Numbers

    A Python number is an [int] or a [float].  A float is held as the
    rational it denotes; the result of a float operation is the exact result
    rounded to the nearest binary64 value, ties to even.  The finite range
    only is modelled (no infinity, no nan), and 0.0 and -0.0 are one
    value. *)

Inductive num : Type :=
| Int (z : Z)
| Float (x : Q).

(** The rational a number denotes. *)
Definition value (n : num) : Q :=
  match n with
  | Int z => inject_Z z
  | Float x => x
  end.

(** [n / d] rounded to the nearest integer, ties to even, for [0 < d]. *)
Definition rne (n d : Z) : Z :=
  let q := (n / d)%Z in
  let r := (n mod d)%Z in
  match (2 * r ?= d)%Z with
  | Lt => q
  | Gt => (q + 1)%Z
  | Eq => if Z.even q then q else (q + 1)%Z
  end.

(** The binary64 value nearest to [n / d], for [0 < n] and [0 < d]: [e] is
    the exponent of the leading bit, [u] the exponent of the last bit kept
    (53 bits, or fewer below the normal range). *)
Definition fl_pos (n d : Z) : Q :=
  let e0 := (Z.log2 n - Z.log2 d)%Z in
  let below :=
    if (0 <=? e0)%Z then (n <? 2 ^ e0 * d)%Z
    else (n * 2 ^ (- e0) <? d)%Z in
  let e := if below then (e0 - 1)%Z else e0 in
  let u := Z.max (e - 52) (-1074) in
  if (0 <=? u)%Z then inject_Z (rne n (d * 2 ^ u) * 2 ^ u)
  else Qred (rne (n * 2 ^ (- u)) d # Z.to_pos (2 ^ (- u))).

(** Rounding to binary64. *)
Definition fl (x : Q) : Q :=
  let y := Qred x in
  match Qnum y with
  | Z0 => 0
  | Zpos n => fl_pos (Zpos n) (Zpos (Qden y))
  | Zneg n => - fl_pos (Zpos n) (Zpos (Qden y))
  end.

(** [float(z)] *)
Definition of_int (z : Z) : Q := fl (inject_Z z).

(** The float operand a number gives to a float operation. *)
Definition to_float (n : num) : Q :=
  match n with
  | Int z => of_int z
  | Float x => x
  end.

(** [x + y], [x - y], [x * y] on floats. *)
Definition fadd (x y : Q) : Q := fl (x + y).
Definition fsub (x y : Q) : Q := fl (x - y).
Definition fmul (x y : Q) : Q := fl (x * y).

(** [x / y] on floats, for [y] other than 0. *)
Definition fdiv (x y : Q) : Q := fl (x / y).

(** [a / b] on ints, for [b] other than 0: the exact quotient, rounded. *)
Definition int_truediv (a b : Z) : Q := fl (inject_Z a / inject_Z b).

(** [max(x, 0)] for a float [x]: the float, unless the int 0 is strictly
    greater. *)
Definition max0 (x : Q) : num := if Qltb x 0 then Int 0 else Float x.

(** [n -= 1] and [n += 1] *)
Definition sub_one (n : num) : num :=
  match n with
  | Int z => Int (z - 1)
  | Float x => Float (fsub x 1)
  end.

Definition add_one (n : num) : num :=
  match n with
  | Int z => Int (z + 1)
  | Float x => Float (fadd x 1)
  end.

(** [math.fmod(x, y)], which is exact. *)
Definition fmod (x y : Q) : Q := Qred (x - y * inject_Z (int_of (x / y))).

(** [x // y] on floats, for [y] other than 0, as [float_floor_div]
    computes it: the quotient of [x - fmod(x, y)] by [y], corrected when the
    remainder and [y] differ in sign, and snapped to the nearest integral
    value. *)
Definition floordiv (x y : Q) : Q :=
  let md := fmod x y in
  let div := fdiv (fsub x md) y in
  let div :=
    if negb (Qeq_bool md 0) && negb (Bool.eqb (Qltb y 0) (Qltb md 0))
    then fsub div 1 else div in
  if Qeq_bool div 0 then 0
  else
    let f := inject_Z (Qfloor div) in
    if Qltb (1 # 2) (fsub div f) then fadd f 1 else f.

End Py.

Import Py.

(** ** attraction.py *)

Module Attraction.

(** The fields of an [Attraction] that its queue, quota and ride-cycle
    methods read or write.  [name], [popularity], the eligibility flags and
    [history] take no part in them.  [capacity] is the float
    [hourly_throughput * (run_time / 60)]; [exp_queue_ratio] is a float;
    [exp_queue_passes] is the int 0 or the float [step] stores. *)
Record t : Type := mk {
  run_time : Z;
  capacity : Q;
  run_time_remaining : Z;
  expedited_queue : bool;
  exp_queue_ratio : Q;
  exp_queue_passes : num;
  agents_in_attraction : list Z;
  queue : list Z;
  exp_queue : list Z;
  exp_queue_passes_distributed : Z
}.

(** [hourly_throughput * (run_time / 60)], the capacity
    [initialize_attraction] computes. *)
Definition capacity_of (hourly_throughput run_time : Z) : Q :=
  fmul (of_int hourly_throughput) (int_truediv run_time 60).

(** [int(self.capacity * self.exp_queue_ratio)] *)
Definition exp_seats (a : t) : Z :=
  int_of (fmul (capacity a) (exp_queue_ratio a)).

(** One pass through the body of the [while] loop shared by
    [get_wait_time] and [get_exp_wait_time]; [q] is [queue_len], [e] is
    [exp_queue_len], which stays an int. *)
Definition cycle (cap : Q) (es : Z) (ss : Q) (q : num) (e : Z) : num * Z :=
  if (e >? es)%Z then
    (if Qltb ss (value q) then Float (fsub (to_float q) ss) else Int 0,
     (e - es)%Z)
  else
    (Float (fsub (to_float q) (fsub cap (of_int e))), 0%Z).

(** [while queue_len >= self.capacity: ...; runs += 1] *)
Fixpoint standby_loop (fuel : nat) (cap : Q) (es : Z) (ss : Q)
    (q : num) (e runs : Z) : option Z :=
  if Qle_bool cap (value q) then
    match fuel with
    | O => None
    | S f =>
        let (q', e') := cycle cap es ss q e in
        standby_loop f cap es ss q' e' (runs + 1)%Z
    end
  else Some runs.

(** [while exp_queue_len >= self.capacity: ...; runs += 1] *)
Fixpoint exp_loop (fuel : nat) (cap : Q) (es : Z) (ss : Q)
    (q : num) (e runs : Z) : option Z :=
  if Qle_bool cap (inject_Z e) then
    match fuel with
    | O => None
    | S f =>
        let (q', e') := cycle cap es ss q e in
        exp_loop f cap es ss q' e' (runs + 1)%Z
    end
  else Some runs.

(** [get_wait_time]; [None] when [fuel] iterations did not leave the loop.
    The result is an int with the expedited queue and a float without. *)
Definition get_wait_time (fuel : nat) (a : t) : option (res num) :=
  if expedited_queue a then
    let queue_len := Int (Z.of_nat (length (queue a))) in
    let exp_queue_len := Z.of_nat (length (exp_queue a)) in
    let es := exp_seats a in
    let ss := fsub (capacity a) (of_int es) in
    match standby_loop fuel (capacity a) es ss queue_len exp_queue_len 0 with
    | Some runs =>
        Some (Ok (Int (runs * run_time a + run_time_remaining a)%Z))
    | None => None
    end
  else if Qeq_bool (capacity a) 0 then Some (Exn ZeroDivisionError)
  else
    Some (Ok (Float
      (fadd (fmul (floordiv (of_int (Z.of_nat (length (queue a))))
                     (capacity a))
                  (of_int (run_time a)))
            (of_int (run_time_remaining a))))).

(** [get_exp_wait_time] *)
Definition get_exp_wait_time (fuel : nat) (a : t) : option (res Z) :=
  if expedited_queue a then
    let queue_len := Int (Z.of_nat (length (queue a))) in
    let exp_queue_len := Z.of_nat (length (exp_queue a)) in
    let es := exp_seats a in
    let ss := fsub (capacity a) (of_int es) in
    match exp_loop fuel (capacity a) es ss queue_len exp_queue_len 0 with
    | Some runs => Some (Ok (runs * run_time a + run_time_remaining a)%Z)
    | None => None
    end
  else Some (Ok 0%Z).

Definition set_queue (l : list Z) (a : t) : t :=
  mk (run_time a) (capacity a) (run_time_remaining a) (expedited_queue a)
     (exp_queue_ratio a) (exp_queue_passes a) (agents_in_attraction a)
     l (exp_queue a) (exp_queue_passes_distributed a).

Definition set_exp_queue (l : list Z) (a : t) : t :=
  mk (run_time a) (capacity a) (run_time_remaining a) (expedited_queue a)
     (exp_queue_ratio a) (exp_queue_passes a) (agents_in_attraction a)
     (queue a) l (exp_queue_passes_distributed a).

Definition set_passes (p : num) (d : Z) (a : t) : t :=
  mk (run_time a) (capacity a) (run_time_remaining a) (expedited_queue a)
     (exp_queue_ratio a) p (agents_in_attraction a)
     (queue a) (exp_queue a) d.

(** [add_to_queue] *)
Definition add_to_queue (agent_id : Z) (a : t) : outcome t unit :=
  Returned (set_queue (queue a ++ [agent_id]) a) tt.

(** [add_to_exp_queue]: the append is made before the wait is estimated,
    so the estimate counts the new agent. *)
Definition add_to_exp_queue (fuel : nat) (agent_id : Z) (a : t)
  : option (outcome t Z) :=
  let a1 := set_exp_queue (exp_queue a ++ [agent_id]) a in
  match get_exp_wait_time fuel a1 with
  | Some (Ok w) => Some (Returned a1 w)
  | Some (Exn e) => Some (Raised e a1)
  | None => None
  end.

(** [remove_pass] *)
Definition remove_pass (a : t) : outcome t unit :=
  Returned (set_passes (sub_one (exp_queue_passes a))
                       (exp_queue_passes_distributed a + 1)%Z a) tt.

(** [return_pass]: the two counters are updated before [remove] can
    raise. *)
Definition return_pass (agent_id : Z) (a : t) : outcome t unit :=
  let a1 := set_passes (add_one (exp_queue_passes a))
                       (exp_queue_passes_distributed a - 1)%Z a in
  match list_remove agent_id (exp_queue a1) with
  | Some l => Returned (set_exp_queue l a1) tt
  | None => Raised ValueError a1
  end.

(** [self.capacity * (60 / self.run_time) * self.exp_queue_ratio]: the
    expedited seats of one operating hour. *)
Definition hourly_exp_capacity (a : t) : Q :=
  fmul (fmul (capacity a) (int_truediv 60 (run_time a)))
       (exp_queue_ratio a).

(** [max(distributed - hourly * passed_operating_hours, 0)] *)
Definition excess (time : Z) (a : t) : num :=
  let passed_operating_hours := (time / 60)%Z in
  max0 (fsub (of_int (exp_queue_passes_distributed a))
             (fmul (hourly_exp_capacity a) (of_int passed_operating_hours))).

(** The value [step] assigns to [exp_queue_passes] while the park is
    open. *)
Definition quota (time park_close : Z) (a : t) : Q :=
  let remaining_operating_hours := ((park_close - time) / 60)%Z in
  fsub (fmul (hourly_exp_capacity a) (of_int remaining_operating_hours))
       (to_float (excess time a)).

(** [step(time, park_close)].  The bound of the standby slice is
    [max(self.capacity - len(exp_queue), 0)]: a float unless the int 0 is
    greater, and a slice with a float bound raises [TypeError], after the
    riders were unloaded, the timer restarted and the expedited agents
    loaded. *)
Definition step (time park_close : Z) (a : t)
  : outcome t (list Z * list Z) :=
  if expedited_queue a && (time <? park_close)%Z && (run_time a =? 0)%Z
  then Raised ZeroDivisionError a
  else
    let passes :=
      if expedited_queue a then
        if (time <? park_close)%Z then Float (quota time park_close a)
        else Int 0
      else exp_queue_passes a in
    if (run_time_remaining a =? 0)%Z then
      let exiting_agents := agents_in_attraction a in
      let max_exp_queue_agents := exp_seats a in
      let max_queue_agents :=
        max0 (fsub (capacity a)
                   (of_int (Z.of_nat (length (exp_queue a))))) in
      let expedited_agents_to_load :=
        slice_to max_exp_queue_agents (exp_queue a) in
      match max_queue_agents with
      | Float _ =>
          Raised TypeError
            (mk (run_time a) (capacity a) (run_time a) (expedited_queue a)
                (exp_queue_ratio a) passes expedited_agents_to_load
                (queue a)
                (slice_from max_exp_queue_agents (exp_queue a))
                (exp_queue_passes_distributed a))
      | Int max_queue =>
          let agents_to_load := slice_to max_queue (queue a) in
          let loaded_agents := expedited_agents_to_load ++ agents_to_load in
          Returned
            (mk (run_time a) (capacity a) (run_time a) (expedited_queue a)
                (exp_queue_ratio a) passes loaded_agents
                (slice_from max_queue (queue a))
                (slice_from max_exp_queue_agents (exp_queue a))
                (exp_queue_passes_distributed a))
            (exiting_agents, loaded_agents)
      end
    else
      Returned
        (mk (run_time a) (capacity a) (run_time_remaining a)
            (expedited_queue a) (exp_queue_ratio a) passes
            (agents_in_attraction a) (queue a) (exp_queue a)
            (exp_queue_passes_distributed a))
        ([], []).

(** [pass_time] *)
Definition pass_time (a : t) : outcome t unit :=
  Returned
    (mk (run_time a) (capacity a) (run_time_remaining a - 1)%Z
        (expedited_queue a) (exp_queue_ratio a) (exp_queue_passes a)
        (agents_in_attraction a) (queue a) (exp_queue a)
        (exp_queue_passes_distributed a))
    tt.

(** The orchestrator's calls to [step], one after the other, each on the
    state the previous one left. *)
Fixpoint run_steps (calls : list (Z * Z)) (a : t) : t :=
  match calls with
  | [] => a
  | (time, park_close) :: rest =>
      run_steps rest (state_of (step time park_close a))
  end.

(** Every agent ID is in at most one of the standby queue, the expedited
    queue and the riding set, and at most once there. *)
Definition one_place (a : t) : Prop :=
  NoDup (queue a ++ exp_queue a ++ agents_in_attraction a).

(** One call of the orchestrator on an attraction. *)
Inductive call : Type :=
| Step (time park_close : Z)
| PassTime.

Definition run_call (c : call) (a : t) : t :=
  match c with
  | Step time park_close => state_of (step time park_close a)
  | PassTime => state_of (pass_time a)
  end.

(** Calls made one after the other, in any order. *)
Fixpoint run_calls (calls : list call) (a : t) : t :=
  match calls with
  | [] => a
  | c :: rest => run_calls rest (run_call c a)
  end.

End Attraction.

(** ** Pseudo-random generators *)

Module Rng.

(** A generator, seen through the one draw the classes make from it:
    the value [.normal(mu, sigma, 1)[0]] yields. *)
Definition generator : Type := Q -> Q -> Q.

(** [g.normal(mu, sigma, 1)[0]]; numpy rejects a negative scale. *)
Definition normal (g : generator) (mu sigma : Q) : res Q :=
  if Qltb sigma 0 then Exn ValueError else Ok (g mu sigma).

(** [np.random.default_rng(seed)] for the generator family [rng]; numpy
    rejects a negative seed. *)
Definition default_rng (rng : Z -> generator) (seed : Z) : res generator :=
  if (seed <? 0)%Z then Exn ValueError else Ok (rng seed).

End Rng.

(** ** activity.py *)

Module Activity.

(** [random_seed] is [None] when the constructor's default is kept. *)
Record t : Type := mk {
  mean_time : Q;
  random_seed : option Z;
  visitors : list Z;
  visitor_time_remaining : list Z
}.

Definition set_visitors (l : list Z) (a : t) : t :=
  mk (mean_time a) (random_seed a) l (visitor_time_remaining a).

Definition set_visitor_time_remaining (l : list Z) (a : t) : t :=
  mk (mean_time a) (random_seed a) (visitors a) l.

(** [if self.random_seed:] holds for a seed that is neither [None]
    nor 0. *)
Definition seed_is_set (a : t) : option Z :=
  match random_seed a with
  | Some s => if (s =? 0)%Z then None else Some s
  | None => None
  end.

(** [int(max(x, 1))] *)
Definition floor_at_one (x : Q) : Z := int_of (max_q x 1).

(** [if expedited_return_time: stay_time = min(max(1, e), stay_time)] *)
Definition cap_stay (expedited_return_time : option Z) (stay_time : Z) : Z :=
  match expedited_return_time with
  | Some e =>
      if (e =? 0)%Z then stay_time
      else Z.min (Z.max 1 e) stay_time
  | None => stay_time
  end.

Section Sampling.

(** [rng seed] is the generator [np.random.default_rng(seed)] builds. *)
Variable rng : Z -> Rng.generator.

(** The draw of [add_to_activity]: from the seeded generator when a seed
    is set, from the process-wide generator [np_random] otherwise. *)
Definition sample_stay (np_random : Rng.generator) (agent_id : Z) (a : t)
  : res Z :=
  let draw :=
    match seed_is_set a with
    | Some s =>
        match Rng.default_rng rng (s + agent_id) with
        | Ok g => Rng.normal g (mean_time a) (mean_time a / 2)
        | Exn e => Exn e
        end
    | None => Rng.normal np_random (mean_time a) (mean_time a / 2)
    end in
  match draw with
  | Ok x => Ok (floor_at_one x)
  | Exn e => Exn e
  end.

(** [add_to_activity(agent_id, expedited_return_time)]: the agent is
    appended to [visitors] before the draw. *)
Definition add_to_activity (np_random : Rng.generator) (agent_id : Z)
    (expedited_return_time : option Z) (a : t) : outcome t unit :=
  let a1 := set_visitors (visitors a ++ [agent_id]) a in
  match sample_stay np_random agent_id a1 with
  | Exn e => Raised e a1
  | Ok stay_time =>
      let stay_time := cap_stay expedited_return_time stay_time in
      Returned
        (set_visitor_time_remaining
           (visitor_time_remaining a1 ++ [stay_time]) a1) tt
  end.

End Sampling.

(** [self.state["visitors"].index(agent_id)] *)
Fixpoint index_of (x : Z) (l : list Z) : option nat :=
  match l with
  | [] => None
  | y :: l' =>
      if (y =? x)%Z then Some O
      else match index_of x l' with
           | Some i => Some (S i)
           | None => None
           end
  end.

(** [force_exit(agent_id)] *)
Definition force_exit (agent_id : Z) (a : t) : outcome t unit :=
  match index_of agent_id (visitors a) with
  | None => Raised ValueError a
  | Some ind =>
      match list_del ind (visitors a) with
      | None => Raised IndexError a
      | Some vs =>
          let a1 := set_visitors vs a in
          match list_del ind (visitor_time_remaining a1) with
          | None => Raised IndexError a1
          | Some ts => Returned (set_visitor_time_remaining ts a1) tt
          end
      end
  end.

(** The comprehension of [step]: the pairs [(ind, agent_id)] of
    [enumerate(visitors)], from index [ind] on, whose remaining time is 0.
    Reading a remaining time past the end raises. *)
Fixpoint exiting_from (ind : nat) (vs : list Z) (times : list Z)
  : res (list (nat * Z)) :=
  match vs with
  | [] => Ok []
  | agent_id :: vs' =>
      match nth_error times ind with
      | None => Exn IndexError
      | Some remaining =>
          match exiting_from (S ind) vs' times with
          | Exn e => Exn e
          | Ok r =>
              Ok (if (remaining =? 0)%Z then (ind, agent_id) :: r else r)
          end
      end
  end.

(** The [for] loop of [step]: [del] both entries at each index in turn. *)
Fixpoint remove_exiting (exiting_agents : list (nat * Z)) (a : t)
  : outcome t unit :=
  match exiting_agents with
  | [] => Returned a tt
  | (ind, _) :: rest =>
      match list_del ind (visitors a) with
      | None => Raised IndexError a
      | Some vs =>
          let a1 := set_visitors vs a in
          match list_del ind (visitor_time_remaining a1) with
          | None => Raised IndexError a1
          | Some ts => remove_exiting rest (set_visitor_time_remaining ts a1)
          end
      end
  end.

(** [step(time)] *)
Definition step (time : Z) (a : t) : outcome t (list Z) :=
  match exiting_from 0 (visitors a) (visitor_time_remaining a) with
  | Exn e => Raised e a
  | Ok exiting_agents =>
      let exiting_agents := rev exiting_agents in
      match remove_exiting exiting_agents a with
      | Raised e s => Raised e s
      | Returned s _ => Returned s (map snd exiting_agents)
      end
  end.

(** [pass_time] *)
Definition pass_time (a : t) : outcome t unit :=
  Returned
    (set_visitor_time_remaining
       (map (fun visitor_time => (visitor_time - 1)%Z)
            (visitor_time_remaining a)) a) tt.

(** The two sequences pair each present agent with its remaining time. *)
Definition occupants (a : t) : list (Z * Z) :=
  combine (visitors a) (visitor_time_remaining a).

(** An occupant has finished its stay: its remaining time is exactly 0. *)
Definition finished (p : Z * Z) : bool := (snd p =? 0)%Z.

Definition staying (p : Z * Z) : bool := negb (finished p).

(** The pairs [(index, agent_id)] of the finished occupants among [l], the
    first of which has index [ind]. *)
Fixpoint finished_from (ind : nat) (l : list (Z * Z)) : list (nat * Z) :=
  match l with
  | [] => []
  | p :: l' =>
      if finished p then (ind, fst p) :: finished_from (S ind) l'
      else finished_from (S ind) l'
  end.

(** The two sequences have the same length. *)
Definition aligned (a : t) : Prop :=
  length (visitors a) = length (visitor_time_remaining a).

(** The occupants but the first one with this agent ID. *)
Fixpoint drop_agent (agent_id : Z) (l : list (Z * Z)) : list (Z * Z) :=
  match l with
  | [] => []
  | p :: l' => if (fst p =? agent_id)%Z then l' else p :: drop_agent agent_id l'
  end.

(** One call of the orchestrator on an activity. *)
Inductive call : Type :=
| Step (time : Z)
| PassTime.

Definition run_call (c : call) (a : t) : t :=
  match c with
  | Step time => state_of (step time a)
  | PassTime => state_of (pass_time a)
  end.

Fixpoint run_calls (calls : list call) (a : t) : t :=
  match calls with
  | [] => a
  | c :: rest => run_calls rest (run_call c a)
  end.

(** [k] calls of [pass_time]. *)
Fixpoint pass_times (k : nat) (a : t) : t :=
  match k with
  | O => a
  | S k' => pass_times k' (state_of (pass_time a))
  end.

End Activity.

(** ** behavior_reference.py *)

Module BehaviorReference.

Record parameters : Type := mk {
  stay_time_preference : Z;
  allow_repeats : bool;
  attraction_preference : Q;
  wait_threshold : Z;
  percent_no_child_rides : Q;
  percent_no_adult_rides : Q;
  percent_no_preference : Q
}.

(** The table, in the order the module writes it. *)
Definition BEHAVIOR_ARCHETYPE_PARAMETERS : list (string * parameters) :=
  [ ("ride_enthusiast"%string, mk 540 true (6 # 10) 480 0 1 0);
    ("ride_favorer"%string, mk 480 true (5 # 10) 420 0 1 0);
    ("park_tourer"%string, mk 420 false (4 # 10) 360 0 1 0);
    ("park_visitor"%string, mk 360 false (3 # 10) 240 0 1 0);
    ("activity_favorer"%string, mk 300 false (2 # 10) 180 0 1 0);
    ("activity_enthusiast"%string, mk 240 false (2 # 10) 90 0 1 0) ].

Fixpoint lookup (k : string) (d : list (string * parameters))
  : option parameters :=
  match d with
  | [] => None
  | (k', v) :: d' => if String.eqb k' k then Some v else lookup k d'
  end.

End BehaviorReference.

(** ** agent.py *)

Module Agent.

(** The values [self.state] holds. *)
Inductive value : Type :=
| VNone
| VBool (b : bool)
| VInt (z : Z)
| VStr (s : string)
| VList (l : list value)
| VDict (d : list (string * value)).

(** A dict with string keys, in insertion order. *)
Definition dict : Type := list (string * value).

Fixpoint dict_get (k : string) (d : dict) : option value :=
  match d with
  | [] => None
  | (k', v) :: d' => if String.eqb k' k then Some v else dict_get k d'
  end.

(** [d[k] = v]: an existing key keeps its place. *)
Fixpoint dict_set (k : string) (v : value) (d : dict) : dict :=
  match d with
  | [] => [(k, v)]
  | (k', v') :: d' =>
      if String.eqb k' k then (k', v) :: d'
      else (k', v') :: dict_set k v d'
  end.

(** [d.update(new)] *)
Definition dict_update (new : dict) (d : dict) : dict :=
  fold_left (fun acc kv => dict_set (fst kv) (snd kv) acc) new d.

(** [{name: v for name in names}] *)
Definition dict_of_names (v : value) (names : list string) : dict :=
  fold_left (fun acc name => dict_set name v acc) names [].

(** A value used as a number: a [bool] counts as 0 or 1. *)
Definition as_int (v : value) : option Z :=
  match v with
  | VInt z => Some z
  | VBool b => Some (if b then 1 else 0)%Z
  | _ => None
  end.

(** [self.behavior] *)
Record behavior_traits : Type := mk_behavior {
  archetype : string;
  stay_time_preference : Z;
  allow_repeats : bool;
  attraction_preference : Q;
  wait_threshold : Z
}.

(** [agent_id] is [None] until [initialize_agent]; the attribute
    [behavior] does not exist until then. *)
Record t : Type := mk {
  agent_id : option Z;
  state : dict;
  log : string;
  random_seed : Z;
  behavior : option behavior_traits
}.

(** The check of the constructor: the three age-class proportions of every
    archetype sum to a value between 0.98 and 1.0. *)
Definition proportions_ok
    (table : list (string * BehaviorReference.parameters)) : bool :=
  forallb
    (fun kv =>
       let age_class_sum :=
         BehaviorReference.percent_no_child_rides (snd kv)
         + BehaviorReference.percent_no_adult_rides (snd kv)
         + BehaviorReference.percent_no_preference (snd kv) in
       Qle_bool (98 # 100) age_class_sum && Qle_bool age_class_sum 1)
    table.

(** [Agent(random_seed)] *)
Definition new (random_seed : Z) : res t :=
  if proportions_ok BehaviorReference.BEHAVIOR_ARCHETYPE_PARAMETERS
  then Ok (mk None [] EmptyString random_seed None)
  else Exn AssertionError.

(** [sum(distribution.values())] *)
Definition total_weight (distribution : list (string * Q)) : Q :=
  fold_left (fun acc kv => acc + snd kv) distribution 0.

(** The cumulative-weight scan: [floor += weight; if rng < floor: return]. *)
Fixpoint scan (rng floor : Q) (distribution : list (string * Q))
  : option string :=
  match distribution with
  | [] => None
  | (k, weight) :: rest =>
      let floor := floor + weight in
      if Qltb rng floor then Some k else scan rng floor rest
  end.

(** [random.uniform(0, b)] is [0 + (b - 0) * random.random()]; [u] is the
    value [random.random()] yields from the process-wide generator. *)
Definition uniform (u : Q) (a b : Q) : Q := a + (b - a) * u.

(** [select_behavior_archetype]; the result is [None] when the scan ends
    without a return.  [agent_id] is not used by the method. *)
Definition select_behavior_archetype (u : Q) (agent_id : Z)
    (behavior_archetype_distribution : list (string * Q)) : option string :=
  let rng := uniform u 0 (total_weight behavior_archetype_distribution) in
  scan rng 0 behavior_archetype_distribution.

(** [select_age_class] *)
Definition select_age_class (u : Q) (agent_id : Z)
    (behavior_archetype_dict : BehaviorReference.parameters)
  : option string :=
  let age_class_distribution :=
    [ ("no_child_rides"%string,
       BehaviorReference.percent_no_child_rides behavior_archetype_dict);
      ("no_adult_rides"%string,
       BehaviorReference.percent_no_adult_rides behavior_archetype_dict);
      ("no_preference"%string,
       BehaviorReference.percent_no_preference behavior_archetype_dict) ] in
  let rng := uniform u 0 (total_weight age_class_distribution) in
  scan rng 0 age_class_distribution.

Definition set_state (d : dict) (a : t) : t :=
  mk (agent_id a) d (log a) (random_seed a) (behavior a).

Definition value_of_option (o : option string) : value :=
  match o with
  | Some s => VStr s
  | None => VNone
  end.

Section Sampling.

Variable rng : Z -> Rng.generator.

(** [initialize_agent]; [u1] and [u2] are the two values
    [random.random()] yields for the archetype and the age class. *)
Definition initialize_agent (u1 u2 : Q)
    (behavior_archetype_distribution : list (string * Q))
    (exp_ability : bool) (exp_wait_threshold exp_limit : Z)
    (agent_id : Z) (attraction_names activity_names : list string)
    (a : t) : outcome t unit :=
  let a := mk (Some agent_id) (state a) (log a) (random_seed a)
              (behavior a) in
  let a := set_state
    (dict_update
       [ ("arrival_time"%string, VNone);
         ("exit_time"%string, VNone);
         ("within_park"%string, VBool false);
         ("current_location"%string, VNone);
         ("current_action"%string, VNone);
         ("time_spent_at_current_location"%string, VInt 0);
         ("expedited_return_time"%string, VList []);
         ("expedited_pass"%string, VList []);
         ("expedited_pass_ability"%string, VBool exp_ability);
         ("exp_wait_threshold"%string, VInt exp_wait_threshold);
         ("exp_limit"%string, VInt exp_limit) ]
       (state a)) a in
  let a := set_state
    (dict_set "attractions"
       (VDict (dict_of_names
                 (VDict [("times_completed"%string, VInt 0)])
                 attraction_names))
       (state a)) a in
  let a := set_state
    (dict_set "activities"
       (VDict (dict_of_names
                 (VDict [("times_visited"%string, VInt 0);
                         ("time_spent"%string, VInt 0)])
                 activity_names))
       (state a)) a in
  match select_behavior_archetype u1 agent_id
          behavior_archetype_distribution with
  | None => Raised KeyError a
  | Some behavior_archetype =>
      match BehaviorReference.lookup behavior_archetype
              BehaviorReference.BEHAVIOR_ARCHETYPE_PARAMETERS with
      | None => Raised KeyError a
      | Some parameters =>
          let age_class := select_age_class u2 agent_id parameters in
          let a := set_state
            (dict_set "age_class" (value_of_option age_class) (state a))
            a in
          match age_class with
          | None => Raised AssertionError a
          | Some _ =>
              let mean := inject_Z
                (BehaviorReference.stay_time_preference parameters) in
              match Rng.default_rng rng (random_seed a + agent_id) with
              | Exn e => Raised e a
              | Ok g =>
                  match Rng.normal g mean (mean / 4) with
                  | Exn e => Raised e a
                  | Ok x =>
                      let stay_time_preference := int_of (max_q x 0) in
                      Returned
                        (mk (Some agent_id) (state a) (log a)
                            (random_seed a)
                            (Some (mk_behavior behavior_archetype
                               stay_time_preference
                               (BehaviorReference.allow_repeats parameters)
                               (BehaviorReference.attraction_preference
                                  parameters)
                               (BehaviorReference.wait_threshold
                                  parameters))))
                        tt
                  end
              end
          end
      end
  end.

(** [decide_to_leave_park(time)]: the pair [(action, location)]. *)
Definition decide_to_leave_park (time : Z) (a : t)
  : outcome t (option string * option string) :=
  match dict_get "arrival_time" (state a) with
  | None => Raised KeyError a
  | Some arrival =>
      match as_int arrival with
      | None => Raised TypeError a
      | Some arrival_time =>
          if (time =? arrival_time)%Z then Returned a (None, None)
          else
            match behavior a with
            | None => Raised AttributeError a
            | Some b =>
                let actual_preference_value :=
                  (time - arrival_time - stay_time_preference b)%Z in
                match agent_id a with
                | None => Raised TypeError a
                | Some id =>
                    match Rng.default_rng rng
                            (random_seed a + id + time) with
                    | Exn e => Raised e a
                    | Ok g =>
                        match Rng.normal g 0 1 with
                        | Exn e => Raised e a
                        | Ok x =>
                            let normal_coinflip := x * 60 in
                            if Qltb normal_coinflip
                                 (inject_Z actual_preference_value)
                            then Returned a
                                   (Some "leaving"%string,
                                    Some "gate"%string)
                            else Returned a (None, None)
                        end
                    end
                end
            end
      end
  end.

End Sampling.

(** The archetype an agent carries after a call. *)
Definition archetype_of (o : outcome t unit) : option string :=
  option_map archetype (behavior (state_of o)).

(** [arrive_at_park(time)], but for the text it appends to [log]. *)
Definition arrive_at_park (time : Z) (a : t) : t :=
  set_state
    (dict_set "time_spent_at_current_location" (VInt 0)
       (dict_set "current_action" (VStr "idling")
          (dict_set "current_location" (VStr "gate")
             (dict_set "arrival_time" (VInt time)
                (dict_set "within_park" (VBool true) (state a))))))
    a.

(** [str(time)] in the f-string of [arrive_at_park]. *)
Definition str (z : Z) : string := NilZero.string_of_int (Z.to_int z).

(** [arrive_at_park(time)] with the text it appends to [log]. *)
Definition arrive_at_park_logged (time : Z) (a : t) : t :=
  mk (agent_id a) (state (arrive_at_park time a))
     (log a ++ "Agent arrived at park at time " ++ str time ++ ". ")
     (random_seed a) (behavior a).

(** The truth value of a value in an [if]. *)
Definition truthy (v : value) : bool :=
  match v with
  | VNone => false
  | VBool b => b
  | VInt z => negb (z =? 0)%Z
  | VStr s => negb (String.eqb s EmptyString)
  | VList l => match l with [] => false | _ => true end
  | VDict d => match d with [] => false | _ => true end
  end.

(** [[val - 1 for val in l]] *)
Fixpoint decrement_all (l : list value) : option (list value) :=
  match l with
  | [] => Some []
  | v :: l' =>
      match as_int v with
      | None => None
      | Some z =>
          match decrement_all l' with
          | Some r => Some (VInt (z - 1) :: r)
          | None => None
          end
      end
  end.

(** The comprehension of [pass_time] over whatever
    [state["expedited_return_time"]] holds: an empty string or dict gives
    the empty list, their elements and keys are strings, and the other
    values are not iterable. *)
Definition decrement_return_times (v : value) : option value :=
  match v with
  | VList l => option_map VList (decrement_all l)
  | VStr s => if String.eqb s EmptyString then Some (VList []) else None
  | VDict d => match d with [] => Some (VList []) | _ => None end
  | _ => None
  end.

(** [pass_time] *)
Definition pass_time (a : t) : outcome t unit :=
  match dict_get "within_park" (state a) with
  | None => Raised KeyError a
  | Some within =>
      if truthy within then
        match dict_get "time_spent_at_current_location" (state a) with
        | None => Raised KeyError a
        | Some spent =>
            match as_int spent with
            | None => Raised TypeError a
            | Some n =>
                let a1 := set_state
                  (dict_set "time_spent_at_current_location"
                     (VInt (n + 1)) (state a)) a in
                match dict_get "expedited_pass" (state a1) with
                | None => Raised KeyError a1
                | Some pass =>
                    if truthy pass then
                      match dict_get "expedited_return_time" (state a1) with
                      | None => Raised KeyError a1
                      | Some times =>
                          match decrement_return_times times with
                          | None => Raised TypeError a1
                          | Some times' =>
                              Returned
                                (set_state
                                   (dict_set "expedited_return_time" times'
                                      (state a1)) a1) tt
                          end
                      end
                    else Returned a1 tt
                end
            end
        end
      else Returned a tt
  end.

(** [k] calls of [pass_time]. *)
Fixpoint pass_times (k : nat) (a : t) : t :=
  match k with
  | O => a
  | S k' => pass_times k' (state_of (pass_time a))
  end.

End Agent.

(** ** Concrete states used below *)

Module Examples.

(** A ride of 10 seats ([hourly_throughput] 120, [run_time] 5) with half
    of them reserved for the expedited queue, at the start of a cycle: 11
    agents hold an expedited place, 5 agents stand by, nobody rides. *)
Definition crowded : Attraction.t :=
  Attraction.mk 5 (Attraction.capacity_of 120 5) 0 true (fl (1 # 2))
    (Int 0) []
    [1; 2; 3; 4; 5]%Z
    [101; 102; 103; 104; 105; 106; 107; 108; 109; 110; 111]%Z
    0.

(** A ride of 10 seats whose expedited ratio 0.05 reserves
    [int(10 * 0.05) = 0] seats, with 10 agents in the expedited queue. *)
Definition stalled : Attraction.t :=
  Attraction.mk 5 (Attraction.capacity_of 120 5) 0 true (fl (1 # 20))
    (Int 0) [] []
    [1; 2; 3; 4; 5; 6; 7; 8; 9; 10]%Z 0.

(** A ride of 10 seats, 5 of them expedited, as [initialize_attraction]
    leaves it. *)
Definition fresh : Attraction.t :=
  Attraction.mk 5 (Attraction.capacity_of 120 5) 0 true (fl (1 # 2))
    (Int 0) [] [] [] 0.

(** The ride of the scenario: 10 seats, 5 minutes a cycle, no expedited
    queue, 25 agents standing by. *)
Definition scenario : Attraction.t :=
  Attraction.mk 5 (Attraction.capacity_of 120 5) 0 false 0 (Int 0) []
    (map Z.of_nat (seq 1 25)) [] 0.

(** A ride of 10 seats with ratio 0.06, in the middle of a cycle, after
    135 passes were distributed and [step(240, 600)] has stored the
    quota. *)
Definition fractional : Attraction.t :=
  state_of
    (Attraction.step 240 600
       (Attraction.mk 5 (Attraction.capacity_of 120 5) 3 true (fl (6 # 100))
          (Int 0) [] [] [] 135)).

(** The agent [Agent(42)] builds. *)
Definition visitor : Agent.t :=
  Agent.mk None [] EmptyString 42 None.

End Examples.

(** ** Properties of the attraction *)

Module AttractionFacts.

Import Attraction.

(** *** Slices *)

Lemma slice_to_from {A} (k : Z) (l : list A) :
  slice_to k l ++ slice_from k l = l.
Proof. unfold slice_to, slice_from. apply firstn_skipn. Qed.

Lemma slice_to_zero {A} (l : list A) : slice_to 0 l = [].
Proof. reflexivity. Qed.

Lemma slice_from_zero {A} (l : list A) : slice_from 0 l = l.
Proof. reflexivity. Qed.

(** [max(x, 0)] is the int 0 or a float that is not negative. *)
Lemma max0_cases (x : Q) :
  (max0 x = Int 0 /\ x < 0) \/ (max0 x = Float x /\ 0 <= x).
Proof.
  unfold max0, Qltb. destruct (Qle_bool 0 x) eqn:E; cbn.
  - right. split; [reflexivity|]. now apply Qle_bool_iff.
  - left. split; [reflexivity|]. apply Qnot_le_lt.
    rewrite <- Qle_bool_iff. congruence.
Qed.

(** *** The ride cycle *)

(** While a cycle runs, [step] returns two empty lists and moves nobody. *)
Lemma step_while_running (time park_close : Z) (a : t) :
  run_time_remaining a <> 0%Z ->
  let a' := state_of (step time park_close a) in
  (value_of (step time park_close a) = Some ([], [])
   \/ value_of (step time park_close a) = None)
  /\ queue a' = queue a
  /\ exp_queue a' = exp_queue a
  /\ agents_in_attraction a' = agents_in_attraction a
  /\ run_time_remaining a' = run_time_remaining a.
Proof.
  intros H. unfold step.
  destruct (expedited_queue a && (time <? park_close)%Z
            && (run_time a =? 0)%Z); cbn.
  - auto 6.
  - apply Z.eqb_neq in H. rewrite H. cbn. auto 6.
Qed.

(** At the start of a cycle, a [step] that returns unloads every rider,
    restarts the timer, and loads a prefix of the expedited queue; the
    bound of the standby slice is then the int 0, so that no standby agent
    is loaded. *)
Lemma step_at_cycle_start (time park_close : Z) (a a' : t)
    (exiting loaded : list Z) :
  run_time_remaining a = 0%Z ->
  step time park_close a = Returned a' (exiting, loaded) ->
  exiting = agents_in_attraction a
  /\ run_time_remaining a' = run_time a
  /\ agents_in_attraction a' = loaded
  /\ loaded = slice_to (exp_seats a) (exp_queue a)
  /\ slice_to (exp_seats a) (exp_queue a) ++ exp_queue a' = exp_queue a
  /\ queue a' = queue a
  /\ fsub (capacity a) (of_int (Z.of_nat (length (exp_queue a)))) < 0.
Proof.
  intros H0. unfold step. rewrite H0. cbn.
  destruct (expedited_queue a && (time <? park_close)%Z
            && (run_time a =? 0)%Z); [discriminate|].
  destruct (max0_cases
              (fsub (capacity a) (of_int (Z.of_nat (length (exp_queue a))))))
    as [[-> L]|[-> L]]; [|discriminate].
  intros E. injection E as <- <- <-.
  cbn [agents_in_attraction run_time_remaining exp_queue queue].
  rewrite slice_to_zero, slice_from_zero, app_nil_r, slice_to_from.
  auto 8.
Qed.

(** C1 (the code departs from the claim).  On a ride of 10 seats with 5
    expedited seats, 11 agents in the expedited queue and 5 agents
    standing by, [step] at the start of a cycle loads the first 5
    expedited agents and no standby agent: the standby share is counted
    from the whole expedited queue, [max(10 - 11, 0) = 0], so the 5 seats
    left after the expedited seats actually filled stay empty. *)
Theorem step_leaves_standby_seats_empty :
  value_of (step 0 600 Examples.crowded)
    = Some ([], [101; 102; 103; 104; 105]%Z)
  /\ queue (state_of (step 0 600 Examples.crowded)) = [1; 2; 3; 4; 5]%Z
  /\ exp_queue (state_of (step 0 600 Examples.crowded))
     = [106; 107; 108; 109; 110; 111]%Z
  /\ capacity Examples.crowded
     - inject_Z (Z.of_nat (length (slice_to (exp_seats Examples.crowded)
                                     (exp_queue Examples.crowded)))) == 5.
Proof. vm_compute. auto. Qed.

(** *** Wait times without an expedited queue *)

(** With the expedited queue disabled, the standby wait is
    [len(queue) // capacity * run_time + run_time_remaining] in float
    arithmetic, and the expedited wait is 0. *)
Lemma wait_times_without_expedited_queue (fuel : nat) (a : t) :
  expedited_queue a = false ->
  ~ capacity a == 0 ->
  get_wait_time fuel a
    = Some (Ok (Float
        (fadd (fmul (floordiv (of_int (Z.of_nat (length (queue a))))
                       (capacity a))
                    (of_int (run_time a)))
              (of_int (run_time_remaining a)))))
  /\ get_exp_wait_time fuel a = Some (Ok 0%Z).
Proof.
  intros Hexp Hcap. unfold get_wait_time, get_exp_wait_time.
  rewrite Hexp. destruct (Qeq_bool (capacity a) 0) eqn:E.
  - apply Qeq_bool_iff in E. contradiction.
  - split; reflexivity.
Qed.

(** C8 (the code departs from the claim).  On the ride of the scenario
    (capacity [120 * (5 / 60)], the float 10.0, cycles of 5 minutes, no
    expedited queue, 25 agents standing by, nobody riding, timer at 0) the
    first [step] does not load 10 agents: the bound of the standby slice is
    the float [max(10.0 - 0, 0)], so the slice raises [TypeError] after the
    timer was restarted; all 25 agents still stand by, nobody rides, and
    the standby wait is then [25 // 10.0 * 5 + 5], the float 15.0, not
    10. *)
Theorem scenario_step_raises_type_error (time park_close : Z) :
  capacity Examples.scenario == 10
  /\ exists a',
       step time park_close Examples.scenario = Raised TypeError a'
       /\ agents_in_attraction a' = []
       /\ queue a' = queue Examples.scenario
       /\ length (queue a') = 25%nat
       /\ run_time_remaining a' = 5%Z
       /\ forall fuel, get_wait_time fuel a' = Some (Ok (Float 15)).
Proof.
  split; [vm_compute; reflexivity|].
  eexists. split; [vm_compute; reflexivity|].
  split; [reflexivity|]. split; [reflexivity|]. split; [reflexivity|].
  split; [reflexivity|].
  intros fuel. vm_compute. reflexivity.
Qed.

(** *** The expedited-pass quota *)

(** C5.  With the expedited queue enabled (and a cycle length other than
    0, which the quota divides by), every [step], whether it returns or
    raises at the standby slice, recomputes [exp_queue_passes]: the int 0
    from park close on; before it, in float arithmetic, the expedited
    capacity of the remaining whole hours minus
    [max(distributed - expedited capacity of the elapsed whole hours, 0)].
    What is subtracted is positive exactly when the passes distributed
    exceed that fair share, and 0 otherwise. *)
Theorem step_recomputes_quota (time park_close : Z) (a : t) :
  expedited_queue a = true ->
  run_time a <> 0%Z ->
  let a' := state_of (step time park_close a) in
  let hourly :=
    fmul (fmul (capacity a) (int_truediv 60 (run_time a)))
         (exp_queue_ratio a) in
  let remaining := of_int ((park_close - time) / 60) in
  let passed := of_int (time / 60) in
  let distributed := of_int (exp_queue_passes_distributed a) in
  ((park_close <= time)%Z -> exp_queue_passes a' = Int 0)
  /\ ((time < park_close)%Z ->
      exists over,
        exp_queue_passes a' = Float (fsub (fmul hourly remaining) over)
        /\ over == Qmax (fsub distributed (fmul hourly passed)) 0
        /\ (0 < fsub distributed (fmul hourly passed) ->
            over == fsub distributed (fmul hourly passed))
        /\ (fsub distributed (fmul hourly passed) <= 0 -> over == 0)).
Proof.
  intros Hexp Hrun. cbv zeta.
  assert (E : exp_queue_passes (state_of (step time park_close a))
              = if (time <? park_close)%Z
                then Float (quota time park_close a) else Int 0).
  { unfold step. rewrite Hexp. apply Z.eqb_neq in Hrun. rewrite Hrun.
    rewrite andb_false_r.
    destruct (run_time_remaining a =? 0)%Z; [|reflexivity].
    destruct (max0 _); reflexivity. }
  split.
  - intros H. rewrite E.
    destruct (time <? park_close)%Z eqn:L; [apply Z.ltb_lt in L; lia|].
    reflexivity.
  - intros H. rewrite E. apply Z.ltb_lt in H. rewrite H.
    unfold quota, excess, hourly_exp_capacity. cbv zeta.
    set (d := fsub (of_int (exp_queue_passes_distributed a))
                (fmul (fmul (fmul (capacity a)
                               (int_truediv 60 (run_time a)))
                         (exp_queue_ratio a))
                   (of_int (time / 60)))).
    destruct (max0_cases d) as [[-> L]|[-> L]]; cbn [to_float].
    + exists (of_int 0). split; [reflexivity|].
      assert (Z0 : of_int 0 == 0) by reflexivity.
      split; [|split].
      * rewrite Z0. symmetry. apply Q.max_r. now apply Qlt_le_weak.
      * intros P. exfalso. apply (Qlt_irrefl 0).
        apply (Qlt_trans _ _ _ P L).
      * intros _. exact Z0.
    + exists d. split; [reflexivity|]. split; [|split].
      * symmetry. now apply Q.max_l.
      * intros _. reflexivity.
      * intros N. apply Qle_antisym; assumption.
Qed.

Lemma step_recomputes_quota_witness :
  exp_queue_passes (state_of (step 600 540 Examples.fresh)) = Int 0
  /\ exists over,
       exp_queue_passes (state_of (step 120 600 Examples.fresh))
       = Float (fsub (fmul (fmul (fmul (capacity Examples.fresh)
                                    (int_truediv 60 5))
                              (fl (1 # 2)))
                        (of_int 8))
                  over)
       /\ over == 0.
Proof.
  split.
  - apply (@step_recomputes_quota 600 540 Examples.fresh eq_refl
             ltac:(discriminate)).
    discriminate.
  - destruct (@step_recomputes_quota 120 600 Examples.fresh eq_refl
                ltac:(discriminate)) as (_ & H).
    destruct (H eq_refl) as (over & H1 & _ & _ & H4).
    exists over. split; [exact H1|]. apply H4.
    vm_compute. discriminate.
Defined.

(** *** One place per agent *)

Lemma reload_permutation {A} (q1 q2 e1 e2 : list A) :
  Permutation ((q1 ++ q2) ++ (e1 ++ e2)) (q2 ++ e2 ++ e1 ++ q1).
Proof.
  transitivity ((q2 ++ q1) ++ (e2 ++ e1)).
  - apply Permutation_app; apply Permutation_app_comm.
  - rewrite <- app_assoc. apply Permutation_app_head.
    rewrite (app_assoc e2 e1 q1). apply Permutation_app_comm.
Qed.

Lemma step_one_place (time park_close : Z) (a : t) :
  one_place a -> one_place (state_of (step time park_close a)).
Proof.
  unfold one_place, step. intros H.
  destruct (expedited_queue a && (time <? park_close)%Z
            && (run_time a =? 0)%Z); cbn; [exact H|].
  destruct (run_time_remaining a =? 0)%Z; cbn; [|exact H].
  set (k := exp_seats a).
  rewrite app_assoc in H. apply NoDup_app_remove_r in H.
  destruct (max0 _) as [m|x]; cbn.
  - rewrite <- (slice_to_from m (queue a)) in H.
    rewrite <- (slice_to_from k (exp_queue a)) in H.
    eapply Permutation_NoDup; [|exact H].
    rewrite !slice_to_from.
    rewrite <- (slice_to_from m (queue a)) at 1.
    rewrite <- (slice_to_from k (exp_queue a)) at 1.
    apply reload_permutation.
  - eapply Permutation_NoDup; [|exact H].
    apply Permutation_app_head.
    rewrite <- (slice_to_from k (exp_queue a)) at 1.
    apply Permutation_app_comm.
Qed.

(** C7.  If every agent ID is in at most one of the standby queue, the
    expedited queue and the riding set, and at most once there, then the
    same holds after any call to [step], whether it returns or raises, and
    so after any sequence of calls. *)
Theorem step_keeps_agents_in_one_place (a : t) :
  one_place a ->
  (forall time park_close,
      one_place (state_of (step time park_close a)))
  /\ (forall calls, one_place (run_steps calls a)).
Proof.
  intros H. split.
  - intros. now apply step_one_place.
  - intros calls. revert a H.
    induction calls as [|[time park_close] rest IH]; intros a H; cbn.
    + exact H.
    + apply IH. now apply step_one_place.
Qed.

Lemma step_keeps_agents_in_one_place_witness :
  one_place (run_steps [(0, 600); (1, 600); (5, 600)]%Z Examples.crowded)
  /\ one_place (state_of (step 0 600 Examples.fresh)).
Proof.
  assert (C : one_place Examples.crowded).
  { unfold one_place. cbn.
    repeat (constructor; [cbn; intuition discriminate|]).
    constructor. }
  assert (F : one_place Examples.fresh).
  { unfold one_place. cbn. constructor. }
  destruct (@step_keeps_agents_in_one_place Examples.crowded C) as [_ HC].
  destruct (@step_keeps_agents_in_one_place Examples.fresh F) as [HF _].
  split; [exact (HC _)|exact (HF _ _)].
Defined.

(** *** The forward simulation of the expedited wait *)

Lemma Qle_bool_false (x y : Q) : Qle_bool x y = false <-> y < x.
Proof.
  split.
  - intros E. apply Qnot_le_lt. rewrite <- Qle_bool_iff. congruence.
  - intros L. destruct (Qle_bool x y) eqn:E; [|reflexivity].
    apply Qle_bool_iff in E. exfalso. apply (Qle_not_lt _ _ E L).
Qed.

Lemma exp_loop_returns (fuel : nat) (cap : Q) (es : Z) (ss : Q)
    (q : num) (e runs : Z) :
  0 < cap -> (0 < es)%Z ->
  inject_Z e < inject_Z (Z.of_nat fuel) + cap ->
  exists r, exp_loop fuel cap es ss q e runs = Some r.
Proof.
  intros Hcap Hes. revert q e runs.
  induction fuel as [|f IH]; intros q e runs Hm.
  - cbn [exp_loop]. destruct (Qle_bool cap (inject_Z e)) eqn:G; [|eauto].
    apply Qle_bool_iff in G.
    change (inject_Z (Z.of_nat 0)) with 0 in Hm. lra.
  - cbn [exp_loop]. destruct (Qle_bool cap (inject_Z e)) eqn:G; [|eauto].
    rewrite Nat2Z.inj_succ, <- Z.add_1_r, inject_Z_plus in Hm.
    change (inject_Z 1) with 1 in Hm.
    unfold cycle. destruct (Z.gtb_spec e es).
    + apply IH. unfold Z.sub. rewrite inject_Z_plus, inject_Z_opp.
      assert (1 <= inject_Z es).
      { change 1 with (inject_Z 1). rewrite <- Zle_Qle. lia. }
      lra.
    + apply IH. change (inject_Z 0) with 0.
      assert (0 <= inject_Z (Z.of_nat f)).
      { change 0 with (inject_Z 0). rewrite <- Zle_Qle. lia. }
      lra.
Qed.

(** [get_exp_wait_time] returns when the expedited queue is disabled, or
    the capacity is positive and at least one seat is expedited. *)
Lemma get_exp_wait_time_returns (a : t) :
  expedited_queue a = false
  \/ 0 < capacity a /\ (0 < exp_seats a)%Z ->
  exists w, get_exp_wait_time (length (exp_queue a)) a = Some (Ok w).
Proof.
  intros H. unfold get_exp_wait_time.
  destruct (expedited_queue a); [|eauto].
  destruct H as [H|[Hcap Hes]]; [discriminate|].
  destruct (@exp_loop_returns (length (exp_queue a)) (capacity a)
              (exp_seats a) (fsub (capacity a) (of_int (exp_seats a)))
              (Int (Z.of_nat (length (queue a))))
              (Z.of_nat (length (exp_queue a))) 0 Hcap Hes)
    as [r Hr]; [lra|].
  rewrite Hr. eauto.
Qed.

Lemma exp_loop_without_seats (fuel : nat) (cap ss : Q) (q : num)
    (e runs : Z) :
  0 < cap -> cap <= inject_Z e ->
  exp_loop fuel cap 0 ss q e runs = None.
Proof.
  intros Hcap He.
  assert (P : (0 < e)%Z).
  { rewrite Zlt_Qlt. change (inject_Z 0) with 0. lra. }
  revert q runs. induction fuel as [|f IH]; intros q runs.
  - cbn. apply Qle_bool_iff in He. now rewrite He.
  - cbn [exp_loop]. pose proof He as G. apply Qle_bool_iff in G.
    rewrite G. unfold cycle.
    destruct (Z.gtb_spec e 0); [|lia].
    replace (e - 0)%Z with e by lia. apply IH.
Qed.

(** C2 (the code departs from the claim).  On a ride of 10 seats with the
    expedited queue enabled and ratio 0.05, [int(10 * 0.05) = 0] seats are
    expedited; with 10 agents in the expedited queue the loop of
    [get_exp_wait_time] is entered and a pass through its body leaves the
    expedited length at 10, so no number of iterations ends the loop. *)
Theorem get_exp_wait_time_never_returns :
  0 < capacity Examples.stalled
  /\ expedited_queue Examples.stalled = true
  /\ exp_seats Examples.stalled = 0%Z
  /\ (forall q, snd (cycle 10 0 10 q 10) = 10%Z)
  /\ (forall fuel, get_exp_wait_time fuel Examples.stalled = None).
Proof.
  split; [vm_compute; reflexivity|]. split; [reflexivity|].
  assert (E : exp_seats Examples.stalled = 0%Z) by (vm_compute; reflexivity).
  split; [exact E|]. split; [reflexivity|].
  intros fuel. unfold get_exp_wait_time.
  change (expedited_queue Examples.stalled) with true. cbv zeta.
  rewrite E. rewrite exp_loop_without_seats; [reflexivity| |].
  - vm_compute. reflexivity.
  - vm_compute. discriminate.
Qed.

(** On the same ride [get_wait_time] returns. *)
Lemma get_wait_time_of_stalled_ride :
  get_wait_time 0 Examples.stalled = Some (Ok (Int 0)).
Proof. vm_compute. reflexivity. Qed.

(** *** Rounding of integral values *)





(** *** Taking and returning a pass *)



(** A float quota need not come back: from the quota
    -63.00000000000001 that [step(240, 600)] stores after 135 passes,
    [remove_pass] stores -64.00000000000001 and [return_pass] then stores
    -63.0. *)
Lemma pass_round_trip_rounds :
  exists a1 w a2,
    add_to_exp_queue 1 7 (state_of (remove_pass Examples.fractional))
    = Some (Returned a1 w)
    /\ return_pass 7 a1 = Returned a2 tt
    /\ exp_queue_passes Examples.fractional
       = Float (-8866461766385665 # 140737488355328)
    /\ exp_queue_passes a2 = Float (-63)
    /\ exp_queue_passes_distributed a2
       = exp_queue_passes_distributed Examples.fractional.
Proof.
  do 3 eexists. split; [vm_compute; reflexivity|].
  split; [vm_compute; reflexivity|].
  split; [vm_compute; reflexivity|].
  split; vm_compute; reflexivity.
Qed.



End AttractionFacts.

(** ** Properties of the activity *)

Module ActivityFacts.

Import Activity.

Lemma nth_error_middle {A} (pre : list A) (x : A) (post : list A) :
  nth_error (pre ++ x :: post) (length pre) = Some x.
Proof. induction pre; cbn; auto. Qed.

Lemma exiting_from_finished (vs ts pre : list Z) :
  length vs = length ts ->
  exiting_from (length pre) vs (pre ++ ts)
  = Ok (finished_from (length pre) (combine vs ts)).
Proof.
  revert ts pre. induction vs as [|v vs IH]; intros ts pre H.
  - reflexivity.
  - destruct ts as [|t ts]; [discriminate|]. cbn in H.
    cbn [exiting_from combine finished_from].
    rewrite nth_error_middle.
    specialize (IH ts (pre ++ [t]) ltac:(lia)).
    rewrite length_app, Nat.add_1_r, <- app_assoc in IH. cbn in IH.
    rewrite IH. unfold finished. cbn. now destruct (t =? 0)%Z.
Qed.

Lemma finished_from_agents (ind : nat) (l : list (Z * Z)) :
  map snd (finished_from ind l) = map fst (filter finished l).
Proof.
  revert ind. induction l as [|p l IH]; intros ind; cbn.
  - reflexivity.
  - destruct (finished p); cbn; now rewrite IH.
Qed.

Lemma list_del_middle {A} (pre : list A) (x : A) (post : list A) :
  list_del (length pre) (pre ++ x :: post) = Some (pre ++ post).
Proof.
  induction pre as [|y pre IH]; cbn.
  - reflexivity.
  - now rewrite IH.
Qed.

Lemma remove_exiting_app (l1 l2 : list (nat * Z)) (a : t) :
  remove_exiting (l1 ++ l2) a
  = match remove_exiting l1 a with
    | Returned s _ => remove_exiting l2 s
    | Raised e s => Raised e s
    end.
Proof.
  revert a. induction l1 as [|[ind id] l1 IH]; intros a; cbn.
  - reflexivity.
  - destruct (list_del ind (visitors a)); [|reflexivity].
    destruct (list_del ind _); [|reflexivity].
    apply IH.
Qed.

(** Deleting the finished agents from the last index down to the first
    leaves, behind any prefix, the agents that stay, each with its own
    remaining time. *)
Lemma remove_exiting_rev (m : Q) (s : option Z) (vs ts pv pt : list Z) :
  length vs = length ts ->
  length pv = length pt ->
  remove_exiting (rev (finished_from (length pv) (combine vs ts)))
    (mk m s (pv ++ vs) (pt ++ ts))
  = Returned
      (mk m s (pv ++ map fst (filter staying (combine vs ts)))
              (pt ++ map snd (filter staying (combine vs ts))))
      tt.
Proof.
  revert ts pv pt. induction vs as [|v vs IH]; intros ts pv pt H P.
  - destruct ts; [reflexivity|discriminate].
  - destruct ts as [|t ts]; [discriminate|]. cbn in H.
    cbn [combine finished_from filter].
    specialize (IH ts (pv ++ [v]) (pt ++ [t]) ltac:(lia)
                   ltac:(rewrite !length_app; cbn; lia)).
    rewrite length_app, Nat.add_1_r, <- !app_assoc in IH. cbn [app] in IH.
    unfold staying at 1 4. unfold finished at 1 2 3. cbn [snd fst].
    destruct (t =? 0)%Z; cbn [negb].
    + cbn [rev]. rewrite remove_exiting_app, IH.
      cbn [remove_exiting visitors set_visitors visitor_time_remaining
           set_visitor_time_remaining mean_time random_seed].
      rewrite list_del_middle.
      rewrite P, list_del_middle. reflexivity.
    + rewrite IH. reflexivity.
Qed.

Lemma combine_fst_snd {A B} (l : list (A * B)) :
  combine (map fst l) (map snd l) = l.
Proof.
  induction l as [|[x y] l IH]; cbn; [reflexivity|now rewrite IH].
Qed.

(** C6.  On a state whose two sequences have the same length, [step]
    returns, in reverse index order, exactly the agents whose remaining
    time is 0; the agents whose remaining time is not 0 all stay, in their
    order, each still at the index of its own remaining time, and the two
    sequences again have the same length. *)
Theorem step_removes_exactly_the_finished (time : Z) (a : t) :
  length (visitors a) = length (visitor_time_remaining a) ->
  exists a',
    step time a
    = Returned a' (rev (map fst (filter finished (occupants a))))
    /\ visitors a' = map fst (filter staying (occupants a))
    /\ visitor_time_remaining a'
       = map snd (filter staying (occupants a))
    /\ occupants a' = filter staying (occupants a)
    /\ length (visitors a') = length (visitor_time_remaining a')
    /\ (forall agent_id remaining,
           In (agent_id, remaining) (occupants a) ->
           (remaining = 0%Z -> ~ In (agent_id, remaining) (occupants a'))
           /\ (remaining <> 0%Z -> In (agent_id, remaining) (occupants a'))).
Proof.
  intros H. destruct a as [m s vs ts]. cbn in H.
  unfold step, occupants.
  cbn [visitors visitor_time_remaining].
  pose proof (@exiting_from_finished vs ts [] H) as X.
  cbn [app length] in X. rewrite X.
  pose proof (@remove_exiting_rev m s vs ts [] [] H eq_refl) as R.
  cbn [app length] in R. cbn [length]. rewrite R.
  eexists. split.
  { rewrite map_rev, finished_from_agents. reflexivity. }
  cbn [visitors visitor_time_remaining].
  assert (C : combine (map fst (filter staying (combine vs ts)))
                      (map snd (filter staying (combine vs ts)))
              = filter staying (combine vs ts)).
  { apply combine_fst_snd. }
  split; [reflexivity|]. split; [reflexivity|]. split; [exact C|].
  split; [now rewrite !length_map|].
  intros agent_id remaining I. rewrite C. split.
  - intros -> F. apply filter_In in F. destruct F as [_ F].
    discriminate.
  - intros N. apply filter_In. split; [exact I|].
    unfold staying, finished. cbn. apply Z.eqb_neq in N. now rewrite N.
Qed.

Lemma step_removes_exactly_the_finished_witness :
  exists a',
    step 9 (mk 30 None [11; 12; 13; 14; 15]%Z [0; 3; 0; -1; 0]%Z)
    = Returned a' [15; 13; 11]%Z
    /\ visitors a' = [12; 14]%Z
    /\ visitor_time_remaining a' = [3; -1]%Z.
Proof.
  destruct (@step_removes_exactly_the_finished 9
              (mk 30 None [11; 12; 13; 14; 15]%Z [0; 3; 0; -1; 0]%Z)
              eq_refl)
    as (a' & S & V & T & _).
  exists a'. repeat split; assumption.
Defined.

(** *** The stay of an agent that holds an expedited place *)

(** A return time other than 0 caps the stay: the stored time is
    [min(max(1, e), sampled)], so at most 10 for a return time of 10. *)
Lemma add_to_activity_capped (rng : Z -> Rng.generator)
    (np_random : Rng.generator) (agent_id e : Z) (a : t) (sampled : Z) :
  e <> 0%Z ->
  sample_stay rng np_random agent_id a = Ok sampled ->
  visitor_time_remaining
    (state_of (add_to_activity rng np_random agent_id (Some e) a))
  = visitor_time_remaining a ++ [Z.min (Z.max 1 e) sampled].
Proof.
  intros N S. unfold add_to_activity.
  change (sample_stay rng np_random agent_id
            (set_visitors (visitors a ++ [agent_id]) a))
    with (sample_stay rng np_random agent_id a).
  rewrite S. cbn. apply Z.eqb_neq in N. now rewrite N.
Qed.

(** C9 (the code departs from the claim).  An agent added with the return
    time 0, which is not [None], to an activity of mean time 30 whose draw
    is 30 is stored with the whole sampled stay 30, not with
    [min(max(1, 0), 30) = 1]: the test [if expedited_return_time:] reads 0
    as no return time. *)
Theorem add_to_activity_return_time_zero_uncapped
    (rng : Z -> Rng.generator) :
  let a := mk 30 None [] [] in
  let np_random : Rng.generator := fun mu _ => mu in
  add_to_activity rng np_random 7 (Some 0%Z) a
  = Returned (mk 30 None [7%Z] [30%Z]) tt
  /\ Z.min (Z.max 1 0) 30 = 1%Z
  /\ add_to_activity rng np_random 7 (Some 10%Z) a
     = Returned (mk 30 None [7%Z] [10%Z]) tt.
Proof. repeat split. Qed.

End ActivityFacts.

(** ** Properties of the agent *)

Module AgentFacts.

Import Agent.

Lemma new_visitor : new 42 = Ok Examples.visitor.
Proof. reflexivity. Qed.

(** The stay preference comes from the generator seeded with
    [random_seed + agent_id] alone: the process-wide draws do not reach
    it once the archetype is fixed. *)
Lemma stay_time_preference_seeded (rng : Z -> Rng.generator)
    (u1 u2 : Q) (dist : list (string * Q)) (ability : bool)
    (threshold limit id : Z) (attractions activities : list string)
    (a a' : t) :
  initialize_agent rng u1 u2 dist ability threshold limit id
    attractions activities a = Returned a' tt ->
  exists name p,
    select_behavior_archetype u1 id dist = Some name
    /\ BehaviorReference.lookup name
         BehaviorReference.BEHAVIOR_ARCHETYPE_PARAMETERS = Some p
    /\ option_map stay_time_preference (behavior a')
       = Some (int_of
                 (max_q
                    (rng (random_seed a + id)%Z
                       (inject_Z (BehaviorReference.stay_time_preference p))
                       (inject_Z (BehaviorReference.stay_time_preference p)
                        / 4)) 0)).
Proof.
  unfold initialize_agent.
  destruct (select_behavior_archetype u1 id dist) as [name|] eqn:S;
    [|discriminate].
  destruct (BehaviorReference.lookup name _) as [p|] eqn:L; [|discriminate].
  destruct (select_age_class u2 id p); [|discriminate].
  cbn [random_seed set_state].
  unfold Rng.default_rng, Rng.normal.
  destruct (random_seed a + id <? 0)%Z; [discriminate|].
  destruct (Qltb _ 0); [discriminate|].
  intros E. injection E as <-. exists name, p.
  split; [reflexivity|]. split; [exact L|reflexivity].
Qed.

(** C3 (the code departs from the claim).  With the base seed 42, the
    agent ID 7 and the same arguments, [initialize_agent] picks
    "ride_enthusiast" when the process-wide [random.random()] yields 0.25
    and "activity_enthusiast" when it yields 0.75: the archetype draw is
    [random.uniform], which takes neither the base seed nor the agent ID.
    And an activity built with the base seed 0 draws from the
    process-wide numpy generator, so two runs whose generators yield 20
    and 40 store the stays 20 and 40 for the same agent. *)
Theorem selection_not_derived_from_base_seed (rng : Z -> Rng.generator) :
  let distribution :=
    [("ride_enthusiast"%string, 1); ("activity_enthusiast"%string, 1)] in
  let run u :=
    initialize_agent rng u (1 # 2) distribution true 30 3 7 [] []
      Examples.visitor in
  archetype_of (run (1 # 4)) = Some "ride_enthusiast"%string
  /\ archetype_of (run (3 # 4)) = Some "activity_enthusiast"%string
  /\ Activity.visitor_time_remaining
       (state_of (Activity.add_to_activity rng (fun _ _ => 20) 7 None
                    (Activity.mk 30 (Some 0%Z) [] [])))
     = [20%Z]
  /\ Activity.visitor_time_remaining
       (state_of (Activity.add_to_activity rng (fun _ _ => 40) 7 None
                    (Activity.mk 30 (Some 0%Z) [] [])))
     = [40%Z].
Proof. repeat split. Qed.

(** C10.  [decide_to_leave_park] leaves the agent as it found it, whether
    it returns or raises; what it returns is ("leaving", "gate") or
    (None, None), and on the arrival tick it returns (None, None). *)
Theorem decide_to_leave_park_frame (rng : Z -> Rng.generator)
    (time : Z) (a : t) :
  state_of (decide_to_leave_park rng time a) = a
  /\ (forall v,
         value_of (decide_to_leave_park rng time a) = Some v ->
         v = (Some "leaving"%string, Some "gate"%string)
         \/ v = (None, None))
  /\ (dict_get "arrival_time" (state a) = Some (VInt time) ->
      decide_to_leave_park rng time a = Returned a (None, None)).
Proof.
  unfold decide_to_leave_park.
  destruct (dict_get "arrival_time" (state a)) as [arrival|].
  2: { repeat split; [discriminate|discriminate]. }
  split; [|split].
  - destruct (as_int arrival) as [t0|]; [|reflexivity].
    destruct (time =? t0)%Z; [reflexivity|].
    destruct (behavior a); [|reflexivity].
    destruct (agent_id a); [|reflexivity].
    destruct (Rng.default_rng rng _); [|reflexivity].
    destruct (Rng.normal _ 0 1); [|reflexivity].
    destruct (Qltb _ _); reflexivity.
  - intros v.
    destruct (as_int arrival) as [t0|]; [|discriminate].
    destruct (time =? t0)%Z.
    { cbn. intros E. injection E as <-. now right. }
    destruct (behavior a); [|discriminate].
    destruct (agent_id a); [|discriminate].
    destruct (Rng.default_rng rng _); [|discriminate].
    destruct (Rng.normal _ 0 1); [|discriminate].
    destruct (Qltb _ _); cbn; intros E; injection E as <-; auto.
  - intros E. injection E as ->. cbn. now rewrite Z.eqb_refl.
Qed.

Lemma decide_to_leave_park_frame_witness :
  let a := arrive_at_park 540 Examples.visitor in
  decide_to_leave_park (fun _ _ _ => 0) 540 a = Returned a (None, None).
Proof.
  apply (@decide_to_leave_park_frame (fun _ _ _ => 0) 540
           (arrive_at_park 540 Examples.visitor)).
  reflexivity.
Defined.

End AgentFacts.

(** ** The wait estimates of an attraction with an expedited queue *)

Module WaitEstimates.

Import Attraction.

Lemma Qfloor_unique (x : Q) (z : Z) :
  inject_Z z <= x -> x < inject_Z (z + 1) -> Qfloor x = z.
Proof.
  intros L U.
  pose proof (Qfloor_le x) as F1. pose proof (Qlt_floor x) as F2.
  assert (z < Qfloor x + 1)%Z.
  { rewrite Zlt_Qlt. eapply Qle_lt_trans; eassumption. }
  assert (Qfloor x < z + 1)%Z.
  { rewrite Zlt_Qlt. eapply Qle_lt_trans; eassumption. }
  lia.
Qed.

Lemma exp_loop_closed (fuel : nat) (cap : Q) (es : Z) (ss : Q) (q : num)
    (e runs : Z) :
  (0 < es)%Z -> inject_Z es <= cap ->
  inject_Z e < inject_Z (Z.of_nat fuel) + cap ->
  exp_loop fuel cap es ss q e runs
  = Some (runs + (if Qle_bool cap (inject_Z e)
                  then Qfloor ((inject_Z e - cap) / inject_Z es) + 1
                  else 0))%Z.
Proof.
  intros Hes Hcap.
  assert (P : 0 < inject_Z es).
  { change 0 with (inject_Z 0). rewrite <- Zlt_Qlt. exact Hes. }
  assert (P1 : 1 <= inject_Z es).
  { change 1 with (inject_Z 1). rewrite <- Zle_Qle. lia. }
  revert q e runs.
  induction fuel as [|f IH]; intros q e runs Hm.
  - cbn [exp_loop]. destruct (Qle_bool cap (inject_Z e)) eqn:G.
    + apply Qle_bool_iff in G.
      change (inject_Z (Z.of_nat 0)) with 0 in Hm. lra.
    + f_equal. lia.
  - cbn [exp_loop]. destruct (Qle_bool cap (inject_Z e)) eqn:G.
    + apply Qle_bool_iff in G.
      rewrite Nat2Z.inj_succ, <- Z.add_1_r, inject_Z_plus in Hm.
      change (inject_Z 1) with 1 in Hm.
      assert (C : exists q', cycle cap es ss q e = (q', (e - es)%Z)).
      { unfold cycle. destruct (Z.gtb_spec e es) as [|N]; eexists.
        - reflexivity.
        - f_equal. rewrite Zle_Qle in N.
          assert (inject_Z e == inject_Z es) by (apply Qle_antisym; lra).
          apply eq_sym, Z.sub_move_0_r.
          apply (proj1 (inject_Z_injective e es)). assumption. }
      destruct C as [q' C]. rewrite C.
      assert (S : inject_Z (e - es) == inject_Z e - inject_Z es).
      { unfold Z.sub. rewrite inject_Z_plus, inject_Z_opp. reflexivity. }
      rewrite IH by (rewrite S; lra). f_equal.
      assert (D : (inject_Z (e - es) - cap) / inject_Z es
                  == (inject_Z e - cap) / inject_Z es - 1).
      { rewrite S. field. lra. }
      destruct (Qle_bool cap (inject_Z (e - es))) eqn:G'.
      * apply Qle_bool_iff in G'.
        set (y' := (inject_Z (e - es) - cap) / inject_Z es) in *.
        set (y := (inject_Z e - cap) / inject_Z es) in *.
        pose proof (Qfloor_le y'). pose proof (Qlt_floor y').
        rewrite (@Qfloor_unique y (Qfloor y' + 1)).
        -- lia.
        -- rewrite inject_Z_plus. change (inject_Z 1) with 1. lra.
        -- rewrite !inject_Z_plus in *. change (inject_Z 1) with 1 in *.
           lra.
      * assert (L : inject_Z (e - es) < cap).
        { apply Qnot_le_lt. rewrite <- Qle_bool_iff. congruence. }
        rewrite (@Qfloor_unique ((inject_Z e - cap) / inject_Z es) 0).
        -- lia.
        -- change (inject_Z 0) with 0. apply Qle_shift_div_l; [exact P|].
           lra.
        -- change (inject_Z (0 + 1)) with 1.
           apply Qlt_shift_div_r; [exact P|]. rewrite S in L. lra.
    + f_equal. lia.
Qed.

(** X2.  With at least one expedited seat and no more of them than the
    capacity, [get_exp_wait_time] returns a closed form: no cycle when the
    expedited queue is shorter than the capacity, and otherwise
    [floor((len(exp_queue) - capacity) / exp_seats) + 1] cycles, plus the
    time left on the running cycle.  The standby queue takes no part in
    it. *)
Theorem get_exp_wait_time_closed_form (a : t) :
  expedited_queue a = true ->
  (0 < exp_seats a)%Z ->
  inject_Z (exp_seats a) <= capacity a ->
  let e := Z.of_nat (length (exp_queue a)) in
  get_exp_wait_time (length (exp_queue a)) a
  = Some (Ok ((if Qle_bool (capacity a) (inject_Z e)
               then Qfloor ((inject_Z e - capacity a)
                            / inject_Z (exp_seats a)) + 1
               else 0) * run_time a
              + run_time_remaining a)%Z).
Proof.
  intros Hexp Hes Hcap e. unfold get_exp_wait_time. rewrite Hexp. cbv zeta.
  rewrite exp_loop_closed; [reflexivity|exact Hes|exact Hcap|].
  assert (1 <= inject_Z (exp_seats a)).
  { change 1 with (inject_Z 1). rewrite <- Zle_Qle. lia. }
  lra.
Qed.

Lemma get_exp_wait_time_closed_form_witness :
  get_exp_wait_time 11 Examples.crowded
  = Some (Ok (((11 - 10) / 5 + 1) * 5 + 0)%Z).
Proof.
  assert (H : get_exp_wait_time 11 Examples.crowded
              = Some (Ok ((if Qle_bool (capacity Examples.crowded)
                                (inject_Z 11)
                           then Qfloor ((inject_Z 11
                                         - capacity Examples.crowded)
                                        / inject_Z
                                            (exp_seats Examples.crowded))
                                + 1
                           else 0) * 5 + 0)%Z)).
  { apply (@get_exp_wait_time_closed_form Examples.crowded eq_refl).
    - vm_compute. reflexivity.
    - vm_compute. discriminate. }
  rewrite H. vm_compute. reflexivity.
Defined.

(** X3.  On a ride with the expedited queue enabled, a positive capacity
    and no negative number of expedited seats, [get_exp_wait_time] returns
    for some number of loop iterations if and only if at least one seat is
    expedited or the expedited queue is shorter than the capacity. *)
Theorem get_exp_wait_time_returns_iff (a : t) :
  expedited_queue a = true ->
  0 < capacity a ->
  (0 <= exp_seats a)%Z ->
  (exists fuel w, get_exp_wait_time fuel a = Some w)
  <-> ((0 < exp_seats a)%Z
       \/ inject_Z (Z.of_nat (length (exp_queue a))) < capacity a).
Proof.
  intros Hexp Hcap Hes. split.
  - intros (fuel & w & H).
    destruct (Z.eq_dec (exp_seats a) 0) as [Z0|]; [|lia].
    destruct (Qlt_le_dec (inject_Z (Z.of_nat (length (exp_queue a))))
                (capacity a)) as [L|G]; [now right|].
    unfold get_exp_wait_time in H. rewrite Hexp, Z0 in H.
    rewrite AttractionFacts.exp_loop_without_seats in H by assumption.
    discriminate.
  - intros [P|L].
    + destruct (@AttractionFacts.get_exp_wait_time_returns a) as [w H].
      { right. split; assumption. }
      eauto.
    + exists 0%nat. unfold get_exp_wait_time. rewrite Hexp. cbn.
      apply AttractionFacts.Qle_bool_false in L. rewrite L. eauto.
Qed.

Lemma get_exp_wait_time_returns_iff_witness :
  (exists fuel w, get_exp_wait_time fuel Examples.crowded = Some w)
  <-> ((0 < exp_seats Examples.crowded)%Z
       \/ inject_Z (Z.of_nat (length (exp_queue Examples.crowded)))
          < capacity Examples.crowded).
Proof.
  apply (@get_exp_wait_time_returns_iff Examples.crowded eq_refl).
  - vm_compute. reflexivity.
  - vm_compute. discriminate.
Defined.

End WaitEstimates.

(** ** The ride cycle over time *)

Module RideCycle.

Import Attraction.

Lemma slice_to_length {A} (k : Z) (l : list A) :
  (0 <= k)%Z ->
  Z.of_nat (length (slice_to k l)) = Z.min k (Z.of_nat (length l)).
Proof.
  intros H. unfold slice_to, slice_bound.
  destruct (Z.ltb_spec k 0); [lia|].
  rewrite length_firstn. lia.
Qed.

(** What [step] does, case by case: it raises on the quota and leaves the
    ride as it is; or a cycle runs and it moves nobody; or it starts a
    cycle, and then returns when the bound of the standby slice is the int
    0 and raises [TypeError] when it is a float. *)
Lemma step_cases (time park_close : Z) (a : t) :
  let a' := state_of (step time park_close a) in
  let d := fsub (capacity a) (of_int (Z.of_nat (length (exp_queue a)))) in
  run_time a' = run_time a /\ capacity a' = capacity a
  /\ exp_queue_ratio a' = exp_queue_ratio a
  /\ expedited_queue a' = expedited_queue a
  /\ queue a' = queue a
  /\ ((a' = a /\ step time park_close a = Raised ZeroDivisionError a)
      \/ (run_time_remaining a <> 0%Z
          /\ value_of (step time park_close a) = Some ([], [])
          /\ run_time_remaining a' = run_time_remaining a
          /\ exp_queue a' = exp_queue a
          /\ agents_in_attraction a' = agents_in_attraction a)
      \/ (run_time_remaining a = 0%Z
          /\ run_time_remaining a' = run_time a
          /\ agents_in_attraction a'
             = slice_to (exp_seats a) (exp_queue a)
          /\ exp_queue a = agents_in_attraction a' ++ exp_queue a'
          /\ ((d < 0
               /\ step time park_close a
                  = Returned a'
                      (agents_in_attraction a, agents_in_attraction a'))
              \/ (0 <= d
                  /\ step time park_close a = Raised TypeError a')))).
Proof.
  unfold step.
  destruct (expedited_queue a && (time <? park_close)%Z
            && (run_time a =? 0)%Z).
  - cbn. auto 10.
  - destruct (Z.eqb_spec (run_time_remaining a) 0) as [E|E].
    + destruct (AttractionFacts.max0_cases
                  (fsub (capacity a)
                     (of_int (Z.of_nat (length (exp_queue a))))))
        as [[-> L]|[-> L]];
        cbn [state_of value_of run_time capacity exp_queue_ratio
             expedited_queue queue run_time_remaining agents_in_attraction
             exp_queue];
        rewrite ?AttractionFacts.slice_to_zero,
          ?AttractionFacts.slice_from_zero, ?app_nil_r,
          AttractionFacts.slice_to_from.
      * repeat split. right. right. repeat split; [exact E|].
        left. split; [exact L|reflexivity].
      * repeat split. right. right. repeat split; [exact E|].
        right. split; [exact L|reflexivity].
    + cbn. repeat split. right. left. repeat split. exact E.
Qed.

(** X4.  A [step] that returns loads a front part of the expedited queue
    followed by a front part of the standby queue and leaves both queues
    with the rest in order; on a ride whose expedited seats are between 0
    and the capacity it never loads more agents than the capacity. *)
Theorem step_loads_queue_fronts_within_capacity
    (time park_close : Z) (a a' : t) (exiting loaded : list Z) :
  (0 <= exp_seats a)%Z ->
  inject_Z (exp_seats a) <= capacity a ->
  step time park_close a = Returned a' (exiting, loaded) ->
  exists from_expedited from_standby,
    loaded = from_expedited ++ from_standby
    /\ exp_queue a = from_expedited ++ exp_queue a'
    /\ queue a = from_standby ++ queue a'
    /\ inject_Z (Z.of_nat (length loaded)) <= capacity a
    /\ (Z.of_nat (length from_expedited) <= exp_seats a)%Z.
Proof.
  intros Hes Hcap H.
  pose proof (step_cases time park_close a) as C. cbv zeta in C.
  rewrite H in C. cbn [state_of value_of] in C.
  destruct C as (_ & _ & _ & _ & Q & [[_ C]|[C|C]]).
  - discriminate.
  - destruct C as (_ & V & _ & E & _). injection V as -> ->.
    exists [], []. cbn. rewrite Q, E. repeat split; [|lia].
    change (inject_Z 0) with 0. eapply Qle_trans; [|exact Hcap].
    change 0 with (inject_Z 0). rewrite <- Zle_Qle. exact Hes.
  - destruct C as (_ & _ & R & E & [[_ V]|[_ V]]); [|discriminate].
    injection V as -> ->.
    exists (agents_in_attraction a'), []. rewrite app_nil_r.
    split; [reflexivity|]. split; [exact E|]. split; [now rewrite Q|].
    assert (B : (Z.of_nat (length (agents_in_attraction a'))
                 <= exp_seats a)%Z).
    { rewrite R, slice_to_length by lia. lia. }
    split; [|exact B].
    eapply Qle_trans; [|exact Hcap]. rewrite <- Zle_Qle. exact B.
Qed.

Lemma step_loads_queue_fronts_within_capacity_witness :
  exists a' exiting loaded from_expedited from_standby,
    step 0 600 Examples.crowded = Returned a' (exiting, loaded)
    /\ loaded = from_expedited ++ from_standby
    /\ inject_Z (Z.of_nat (length loaded)) <= capacity Examples.crowded.
Proof.
  assert (S : step 0 600 Examples.crowded
              = Returned (state_of (step 0 600 Examples.crowded))
                  ([], [101; 102; 103; 104; 105]%Z)).
  { vm_compute. reflexivity. }
  destruct (@step_loads_queue_fronts_within_capacity 0 600 Examples.crowded
              _ _ _ ltac:(vm_compute; discriminate)
              ltac:(vm_compute; discriminate) S)
    as (fe & fs & L & _ & _ & B & _).
  eexists _, _, _, fe, fs. split; [exact S|]. split; [exact L|exact B].
Defined.

Lemma run_call_config (c : call) (a : t) :
  capacity (run_call c a) = capacity a
  /\ exp_queue_ratio (run_call c a) = exp_queue_ratio a
  /\ run_time (run_call c a) = run_time a
  /\ queue (run_call c a) = queue a.
Proof.
  destruct c as [time park_close|]; cbn.
  - pose proof (step_cases time park_close a) as C. cbv zeta in C. tauto.
  - auto.
Qed.

(** X5.  On a ride whose expedited seats are between 0 and the capacity
    and that holds no more riders than the capacity, no sequence of [step]
    and [pass_time] calls, whether a [step] returns or raises, brings more
    riders on the ride than the capacity. *)
Theorem riders_never_exceed_capacity (calls : list call) (a : t) :
  (0 <= exp_seats a)%Z ->
  inject_Z (exp_seats a) <= capacity a ->
  inject_Z (Z.of_nat (length (agents_in_attraction a))) <= capacity a ->
  inject_Z (Z.of_nat (length (agents_in_attraction (run_calls calls a))))
  <= capacity a.
Proof.
  revert a. induction calls as [|c rest IH]; intros a Hes Hcap H; cbn.
  - exact H.
  - pose proof (run_call_config c a) as (Hc & Hr & _ & _).
    assert (He : exp_seats (run_call c a) = exp_seats a).
    { unfold exp_seats. now rewrite Hc, Hr. }
    rewrite <- Hc. apply IH; rewrite ?He, ?Hc; [exact Hes|exact Hcap|].
    destruct c as [time park_close|]; cbn; [|exact H].
    pose proof (step_cases time park_close a) as C. cbv zeta in C.
    destruct C as (_ & _ & _ & _ & _ & [[-> _]|[C|C]]).
    + exact H.
    + destruct C as (_ & _ & _ & _ & ->). exact H.
    + destruct C as (_ & _ & -> & _).
      eapply Qle_trans; [|exact Hcap]. rewrite <- Zle_Qle.
      rewrite slice_to_length by lia. lia.
Qed.

Lemma riders_never_exceed_capacity_witness :
  inject_Z
    (Z.of_nat
       (length
          (agents_in_attraction
             (run_calls [Step 0 600; PassTime; Step 1 600]
                Examples.crowded))))
  <= capacity Examples.crowded.
Proof.
  apply (@riders_never_exceed_capacity
           [Step 0 600; PassTime; Step 1 600] Examples.crowded).
  - vm_compute. discriminate.
  - vm_compute. discriminate.
  - vm_compute. discriminate.
Defined.

(** X7.  Once the timer is below 0, no sequence of [step] and [pass_time]
    calls loads or unloads anybody again: the timer stays below 0, queues
    and riders stay as they are, and every later [step] returns two empty
    lists or raises. *)
Theorem negative_timer_stalls_the_ride (calls : list call) (a : t) :
  (run_time_remaining a < 0)%Z ->
  let a' := run_calls calls a in
  (run_time_remaining a' < 0)%Z
  /\ queue a' = queue a
  /\ exp_queue a' = exp_queue a
  /\ agents_in_attraction a' = agents_in_attraction a
  /\ forall time park_close,
       value_of (step time park_close a') = Some ([], [])
       \/ value_of (step time park_close a') = None.
Proof.
  cbv zeta. revert a. induction calls as [|c rest IH]; intros a H.
  - cbn. repeat split; try assumption.
    intros time park_close.
    pose proof (step_cases time park_close a) as C. cbv zeta in C.
    destruct C as (_ & _ & _ & _ & _ & [[_ C]|[C|C]]).
    + right. now rewrite C.
    + left. tauto.
    + lia.
  - cbn [run_calls].
    assert (S : (run_time_remaining (run_call c a) < 0)%Z
                /\ queue (run_call c a) = queue a
                /\ exp_queue (run_call c a) = exp_queue a
                /\ agents_in_attraction (run_call c a)
                   = agents_in_attraction a).
    { destruct c as [time park_close|]; cbn.
      - pose proof (step_cases time park_close a) as C. cbv zeta in C.
        destruct C as (_ & _ & _ & _ & Q & [[-> _]|[C|C]]); [auto| |lia].
        destruct C as (_ & _ & -> & -> & ->). auto.
      - repeat split. lia. }
    destruct S as (S1 & S2 & S3 & S4).
    destruct (IH (run_call c a) S1) as (I1 & I2 & I3 & I4 & I5).
    rewrite I2, I3, I4. auto.
Qed.

Lemma negative_timer_stalls_the_ride_witness :
  let a := run_calls [PassTime] Examples.crowded in
  queue (run_calls [Step 1 600; PassTime; Step 2 600] a) = queue a.
Proof.
  apply (@negative_timer_stalls_the_ride
           [Step 1 600; PassTime; Step 2 600]
           (run_calls [PassTime] Examples.crowded)).
  reflexivity.
Defined.

(** X21.  No sequence of [step] and [pass_time] calls takes an agent off
    the standby queue: a [step] that starts a cycle either raises at the
    standby slice or slices the standby queue at the int 0. *)
Theorem standby_queue_is_never_served (calls : list call) (a : t) :
  queue (run_calls calls a) = queue a.
Proof.
  revert a. induction calls as [|c rest IH]; intros a; cbn.
  - reflexivity.
  - rewrite IH. apply run_call_config.
Qed.

(** X22.  A [step] at timer 0 on a ride with a cycle length other than 0
    restarts the timer, replaces the riders by the front of the expedited
    queue and leaves the standby queue alone; it raises [TypeError] when
    the float [capacity - len(exp_queue)] is not negative, and then the
    riders it unloaded are not handed to the caller; it returns them, with
    the new riders, when that float is negative. *)
Theorem step_at_timer_zero (time park_close : Z) (a : t) :
  run_time_remaining a = 0%Z ->
  run_time a <> 0%Z ->
  let a' := state_of (step time park_close a) in
  let d := fsub (capacity a) (of_int (Z.of_nat (length (exp_queue a)))) in
  run_time_remaining a' = run_time a
  /\ agents_in_attraction a' = slice_to (exp_seats a) (exp_queue a)
  /\ exp_queue a = agents_in_attraction a' ++ exp_queue a'
  /\ queue a' = queue a
  /\ (0 <= d -> step time park_close a = Raised TypeError a')
  /\ (d < 0 ->
      step time park_close a
      = Returned a' (agents_in_attraction a, agents_in_attraction a')).
Proof.
  intros H0 Hr. cbv zeta.
  pose proof (step_cases time park_close a) as C. cbv zeta in C.
  destruct C as (_ & _ & _ & _ & Q & [[_ C]|[C|C]]).
  - exfalso. unfold step in C. apply Z.eqb_neq in Hr.
    rewrite Hr, andb_false_r, H0 in C. cbn in C.
    destruct (max0 _); discriminate.
  - tauto.
  - destruct C as (_ & T & R & E & D).
    split; [exact T|]. split; [exact R|]. split; [exact E|].
    split; [exact Q|].
    destruct D as [[L V]|[L V]]; split; intros N;
      try exact V; exfalso; lra.
Qed.

Lemma step_at_timer_zero_witness :
  step 0 600 Examples.fresh
  = Raised TypeError (state_of (step 0 600 Examples.fresh))
  /\ run_time_remaining (state_of (step 0 600 Examples.fresh)) = 5%Z.
Proof.
  destruct (@step_at_timer_zero 0 600 Examples.fresh eq_refl
              ltac:(discriminate)) as (T & _ & _ & _ & R & _).
  split; [|exact T]. apply R. vm_compute. discriminate.
Defined.

End RideCycle.

(** ** Expedited passes *)

Module Passes.

Import Attraction.

Lemma list_remove_absent (x : Z) (l : list Z) :
  ~ In x l -> list_remove x l = None.
Proof.
  induction l as [|y l IH]; cbn; intros H.
  - reflexivity.
  - destruct (Z.eqb_spec y x) as [E|E]; [tauto|].
    rewrite IH by tauto. reflexivity.
Qed.

(** X8.  [return_pass] for an agent that is not in the expedited queue
    raises [ValueError] after it has added a pass and lowered the
    distributed count: the two counters are left changed, the queues
    untouched. *)
Theorem return_pass_of_absent_agent (agent_id : Z) (a : t) :
  ~ In agent_id (exp_queue a) ->
  exists a',
    return_pass agent_id a = Raised ValueError a'
    /\ exp_queue_passes a' = add_one (exp_queue_passes a)
    /\ exp_queue_passes_distributed a'
       = (exp_queue_passes_distributed a - 1)%Z
    /\ exp_queue a' = exp_queue a
    /\ queue a' = queue a
    /\ agents_in_attraction a' = agents_in_attraction a.
Proof.
  intros H. unfold return_pass. cbn [exp_queue set_passes].
  rewrite (list_remove_absent _ _ H). eexists. repeat split.
Qed.

Lemma return_pass_of_absent_agent_witness :
  exists a',
    return_pass 7 Examples.crowded = Raised ValueError a'
    /\ exp_queue_passes a' = Int 1.
Proof.
  destruct (@return_pass_of_absent_agent 7 Examples.crowded)
    as (a' & R & P & _).
  - cbn. intuition discriminate.
  - exists a'. split; assumption.
Defined.

End Passes.

(** ** Stays in an activity *)

Module Stays.

Import Activity.

Lemma Qltb_lt (x y : Q) : Qltb x y = true <-> x < y.
Proof.
  unfold Qltb. rewrite negb_true_iff. split.
  - intros H. apply Qnot_le_lt. rewrite <- Qle_bool_iff. congruence.
  - intros H. destruct (Qle_bool y x) eqn:E; [|reflexivity].
    apply Qle_bool_iff in E. apply Qle_not_lt in E. contradiction.
Qed.

Lemma Qltb_ge (x y : Q) : y <= x -> Qltb x y = false.
Proof.
  intros H. destruct (Qltb x y) eqn:E; [|reflexivity].
  apply Qltb_lt in E. apply Qle_not_lt in H. contradiction.
Qed.

Lemma int_of_at_least_one (x : Q) : 1 <= x -> (1 <= int_of x)%Z.
Proof.
  destruct x as [n d]. unfold Qle, int_of. cbn. intros H.
  apply Z.quot_le_lower_bound; lia.
Qed.

Lemma floor_at_one_positive (x : Q) : (1 <= floor_at_one x)%Z.
Proof.
  unfold floor_at_one, max_q. apply int_of_at_least_one.
  destruct (Qltb x 1) eqn:E.
  - apply Qle_refl.
  - destruct (Qlt_le_dec x 1) as [L|L]; [|exact L].
    apply Qltb_lt in L. congruence.
Qed.

(** X10.  On an activity whose mean time is not negative (and, with a seed
    set, whose seed plus the agent ID is not negative), [add_to_activity]
    returns, appends the agent and one remaining time, so that aligned
    sequences stay aligned, and the stored time is at least 1; with a
    return time other than 0 it is at most [max(1, return time)]. *)
Theorem add_to_activity_stores_positive_stay (rng : Z -> Rng.generator)
    (np_random : Rng.generator) (agent_id : Z)
    (expedited_return_time : option Z) (a : t) :
  0 <= mean_time a ->
  (forall s, seed_is_set a = Some s -> (0 <= s + agent_id)%Z) ->
  exists stay,
    add_to_activity rng np_random agent_id expedited_return_time a
    = Returned (mk (mean_time a) (random_seed a)
                  (visitors a ++ [agent_id])
                  (visitor_time_remaining a ++ [stay])) tt
    /\ (1 <= stay)%Z
    /\ (aligned a ->
        aligned (state_of (add_to_activity rng np_random agent_id
                             expedited_return_time a)))
    /\ (forall e, expedited_return_time = Some e -> e <> 0%Z ->
                  (stay <= Z.max 1 e)%Z).
Proof.
  intros Hm Hs.
  assert (Hsigma : Qltb (mean_time a / 2) 0 = false).
  { apply Qltb_ge. unfold Qdiv.
    apply Qmult_le_0_compat; [exact Hm|discriminate]. }
  assert (S : exists x,
           sample_stay rng np_random agent_id
             (set_visitors (visitors a ++ [agent_id]) a)
           = Ok (floor_at_one x)).
  { unfold sample_stay.
    change (seed_is_set (set_visitors (visitors a ++ [agent_id]) a))
      with (seed_is_set a).
    cbn [mean_time set_visitors].
    destruct (seed_is_set a) as [s|] eqn:E.
    - unfold Rng.default_rng.
      destruct (Z.ltb_spec (s + agent_id) 0) as [L|L].
      + specialize (Hs s eq_refl). lia.
      + unfold Rng.normal. rewrite Hsigma. eauto.
    - unfold Rng.normal. rewrite Hsigma. eauto. }
  destruct S as [x S].
  exists (cap_stay expedited_return_time (floor_at_one x)).
  unfold add_to_activity. rewrite S.
  pose proof (floor_at_one_positive x) as P.
  split; [reflexivity|]. split; [|split].
  - unfold cap_stay. destruct expedited_return_time as [e|]; [|exact P].
    destruct (e =? 0)%Z; lia.
  - unfold aligned. cbn. rewrite !length_app. cbn. lia.
  - intros e -> N. cbn. apply Z.eqb_neq in N. rewrite N. lia.
Qed.

Lemma add_to_activity_stores_positive_stay_witness :
  exists stay,
    add_to_activity (fun _ mu _ => mu) (fun mu _ => mu) 7 (Some 10%Z)
      (mk 30 (Some 5%Z) [] [])
    = Returned (mk 30 (Some 5%Z) [7%Z] [stay]) tt
    /\ (1 <= stay)%Z.
Proof.
  destruct (@add_to_activity_stores_positive_stay
              (fun _ mu _ => mu) (fun mu _ => mu) 7 (Some 10%Z)
              (mk 30 (Some 5%Z) [] []))
    as (stay & A & P & _).
  - discriminate.
  - cbn. intros s E. injection E as <-. lia.
  - exists stay. split; assumption.
Defined.

Lemma force_exit_lists (agent_id : Z) (vs ts : list Z) :
  length vs = length ts ->
  match index_of agent_id vs with
  | None => ~ In agent_id vs
  | Some i =>
      In agent_id vs
      /\ exists vs' ts',
           list_del i vs = Some vs' /\ list_del i ts = Some ts'
           /\ combine vs' ts' = drop_agent agent_id (combine vs ts)
           /\ length vs' = length ts'
           /\ S (length vs') = length vs
  end.
Proof.
  revert ts. induction vs as [|v vs IH]; intros ts H.
  - cbn. tauto.
  - destruct ts as [|t ts]; [discriminate|]. cbn in H.
    cbn [index_of]. destruct (Z.eqb_spec v agent_id) as [E|E].
    + split; [now left|].
      exists vs, ts. cbn. subst v. rewrite Z.eqb_refl.
      repeat split. lia.
    + specialize (IH ts ltac:(lia)).
      destruct (index_of agent_id vs) as [i|].
      * destruct IH as (I & vs' & ts' & D1 & D2 & C & L & N).
        split; [now right|].
        exists (v :: vs'), (t :: ts'). cbn. rewrite D1, D2.
        apply Z.eqb_neq in E. rewrite E, C. cbn. repeat split; lia.
      * cbn. tauto.
Qed.

(** X11.  On aligned sequences, [force_exit] of an agent that is not
    present raises [ValueError] and changes nothing; of a present agent it
    removes the first entry with that ID together with its own remaining
    time, and leaves the other occupants in order and aligned. *)
Theorem force_exit_removes_one_occupant (agent_id : Z) (a : t) :
  aligned a ->
  (~ In agent_id (visitors a) ->
   force_exit agent_id a = Raised ValueError a)
  /\ (In agent_id (visitors a) ->
      exists a',
        force_exit agent_id a = Returned a' tt
        /\ occupants a' = drop_agent agent_id (occupants a)
        /\ aligned a'
        /\ S (length (visitors a')) = length (visitors a)).
Proof.
  intros H. unfold aligned in H.
  pose proof (force_exit_lists agent_id _ _ H) as F.
  unfold force_exit.
  destruct (index_of agent_id (visitors a)) as [i|].
  - destruct F as (I & vs' & ts' & D1 & D2 & C & L & N). split.
    + intros A. contradiction.
    + intros _. rewrite D1. cbn. rewrite D2.
      eexists. split; [reflexivity|]. unfold occupants, aligned. cbn.
      auto.
  - split; [reflexivity|]. tauto.
Qed.

Lemma force_exit_removes_one_occupant_witness :
  exists a',
    force_exit 12 (mk 30 None [11; 12; 13; 12]%Z [4; 5; 6; 7]%Z)
    = Returned a' tt
    /\ occupants a' = [(11, 4); (13, 6); (12, 7)]%Z.
Proof.
  destruct (@force_exit_removes_one_occupant 12
              (mk 30 None [11; 12; 13; 12]%Z [4; 5; 6; 7]%Z) eq_refl)
    as (_ & F).
  destruct F as (a' & F & O & _).
  - cbn. auto.
  - exists a'. split; assumption.
Defined.

(** On aligned sequences [step] returns, and leaves exactly the occupants
    whose remaining time is not 0. *)
Lemma step_aligned (time : Z) (a : t) :
  aligned a ->
  step time a
  = Returned
      (mk (mean_time a) (random_seed a)
          (map fst (filter staying (occupants a)))
          (map snd (filter staying (occupants a))))
      (rev (map fst (filter finished (occupants a)))).
Proof.
  intros H. destruct a as [m s vs ts]. unfold aligned in H. cbn in H.
  unfold step, occupants. cbn [visitors visitor_time_remaining].
  pose proof (@ActivityFacts.exiting_from_finished vs ts [] H) as X.
  cbn [app length] in X. rewrite X.
  pose proof (@ActivityFacts.remove_exiting_rev m s vs ts [] [] H eq_refl)
    as R.
  cbn [app length] in R. rewrite R.
  rewrite map_rev, ActivityFacts.finished_from_agents. reflexivity.
Qed.

Lemma step_keeps_aligned (time : Z) (a : t) :
  aligned a ->
  aligned (state_of (step time a))
  /\ occupants (state_of (step time a)) = filter staying (occupants a).
Proof.
  intros H. rewrite (step_aligned time H). unfold aligned, occupants. cbn.
  rewrite !length_map. split; [reflexivity|].
  apply ActivityFacts.combine_fst_snd.
Qed.

Lemma pass_times_spec (k : nat) (a : t) :
  pass_times k a
  = mk (mean_time a) (random_seed a) (visitors a)
       (map (fun remaining => (remaining - Z.of_nat k)%Z)
            (visitor_time_remaining a)).
Proof.
  revert a. induction k as [|k IH]; intros a.
  - destruct a as [m s vs ts]. cbn. f_equal.
    rewrite <- (map_id ts) at 1. apply map_ext. intros. lia.
  - cbn [pass_times]. rewrite IH. cbn. f_equal.
    rewrite map_map. apply map_ext. intros. lia.
Qed.

Lemma finished_after (k : Z) (vs ts : list Z) :
  map fst (filter finished
             (combine vs (map (fun remaining => (remaining - k)%Z) ts)))
  = map fst (filter (fun p => (snd p =? k)%Z) (combine vs ts)).
Proof.
  revert ts. induction vs as [|v vs IH]; intros ts.
  - reflexivity.
  - destruct ts as [|t ts]; [reflexivity|]. cbn.
    unfold finished at 1. cbn [snd].
    destruct (Z.eqb_spec (t - k) 0); destruct (Z.eqb_spec t k);
      try lia; cbn; now rewrite IH.
Qed.

(** X12.  On aligned sequences, the [step] that follows [k] calls of
    [pass_time] returns, in reverse index order, exactly the agents whose
    remaining time was [k]: an agent leaves at the tick its stay runs
    out. *)
Theorem step_after_pass_times (k : nat) (time : Z) (a : t) :
  aligned a ->
  value_of (step time (pass_times k a))
  = Some (rev (map fst (filter (fun p => (snd p =? Z.of_nat k)%Z)
                          (occupants a)))).
Proof.
  intros H.
  assert (A : aligned (pass_times k a)).
  { rewrite pass_times_spec. unfold aligned. cbn. now rewrite length_map. }
  rewrite (step_aligned time A). cbn [value_of].
  rewrite pass_times_spec. unfold occupants. cbn.
  now rewrite finished_after.
Qed.

Lemma step_after_pass_times_witness :
  value_of (step 9 (pass_times 3
                      (mk 30 None [11; 12; 13; 14]%Z [3; 1; 3; 5]%Z)))
  = Some [13; 11]%Z.
Proof.
  apply (@step_after_pass_times 3 9
           (mk 30 None [11; 12; 13; 14]%Z [3; 1; 3; 5]%Z)).
  reflexivity.
Defined.

Lemma in_combine_map (f : Z -> Z) (x t : Z) (vs ts : list Z) :
  In (x, t) (combine vs ts) -> In (x, f t) (combine vs (map f ts)).
Proof.
  revert ts. induction vs as [|v vs IH]; intros ts; [contradiction|].
  destruct ts as [|u ts]; [contradiction|]. cbn.
  intros [E|I].
  - injection E as -> ->. now left.
  - right. now apply IH.
Qed.

(** X13.  On aligned sequences, an agent whose remaining time is below 0 is
    never removed by [step]: after any sequence of [step] and [pass_time]
    calls it is still an occupant, with a remaining time that has not
    grown. *)
Theorem negative_stay_never_ends (calls : list call) (a : t)
    (agent_id remaining : Z) :
  aligned a ->
  In (agent_id, remaining) (occupants a) ->
  (remaining < 0)%Z ->
  aligned (run_calls calls a)
  /\ exists remaining',
       In (agent_id, remaining') (occupants (run_calls calls a))
       /\ (remaining' <= remaining)%Z.
Proof.
  revert a remaining.
  induction calls as [|c rest IH]; intros a remaining H I N.
  - cbn. split; [exact H|]. exists remaining. split; [exact I|lia].
  - cbn [run_calls]. destruct c as [time|]; cbn [run_call].
    + destruct (step_keeps_aligned time H) as [A O].
      destruct (IH (state_of (step time a)) remaining A) as (A' & r & I' & L).
      * rewrite O. apply filter_In. split; [exact I|].
        unfold staying, finished. cbn.
        destruct (Z.eqb_spec remaining 0); [lia|reflexivity].
      * exact N.
      * split; [exact A'|]. exists r. split; [exact I'|lia].
    + destruct (IH (state_of (pass_time a)) (remaining - 1)%Z)
        as (A' & r & I' & L).
      * unfold aligned. cbn. rewrite length_map. exact H.
      * unfold occupants. cbn.
        now apply (in_combine_map (fun t => (t - 1)%Z)).
      * lia.
      * split; [exact A'|]. exists r. split; [exact I'|lia].
Qed.

Lemma negative_stay_never_ends_witness :
  exists remaining',
    In (12%Z, remaining')
       (occupants
          (run_calls [Step 1; PassTime; Step 2; PassTime; Step 3]
             (mk 30 None [11; 12]%Z [1; -1]%Z)))
    /\ (remaining' <= -1)%Z.
Proof.
  apply (@negative_stay_never_ends
           [Step 1; PassTime; Step 2; PassTime; Step 3]
           (mk 30 None [11; 12]%Z [1; -1]%Z) 12 (-1) eq_refl).
  - cbn. auto.
  - reflexivity.
Defined.

End Stays.

(** ** Archetype and age-class selection *)

Module Selection.

Import Agent.




Lemma age_class_of_adult_only (u : Q) (agent_id : Z)
    (p : BehaviorReference.parameters) :
  0 <= u -> u < 1 ->
  BehaviorReference.percent_no_child_rides p == 0 ->
  BehaviorReference.percent_no_adult_rides p == 1 ->
  BehaviorReference.percent_no_preference p == 0 ->
  select_age_class u agent_id p = Some "no_adult_rides"%string.
Proof.
  intros U0 U1 C A N. unfold select_age_class, total_weight, uniform.
  cbn [fold_left snd scan].
  set (c := BehaviorReference.percent_no_child_rides p) in *.
  set (d := BehaviorReference.percent_no_adult_rides p) in *.
  set (n := BehaviorReference.percent_no_preference p) in *.
  assert (X : 0 + (0 + c + d + n - 0) * u == u).
  { rewrite C, A, N. ring. }
  rewrite Stays.Qltb_ge by (rewrite X, C; lra).
  assert (H : Qltb (0 + (0 + c + d + n - 0) * u) (0 + c + d) = true).
  { apply Stays.Qltb_lt. rewrite X, C, A. lra. }
  rewrite H. reflexivity.
Qed.

(** X15.  The archetype table of [behavior_reference.py] passes the check
    of the constructor, and every archetype in it gives every agent the age
    class "no_adult_rides", for every draw of [random.random()] in
    [0, 1). *)
Theorem table_gives_one_age_class (seed : Z) (u : Q) (agent_id : Z)
    (name : string) (p : BehaviorReference.parameters) :
  0 <= u -> u < 1 ->
  BehaviorReference.lookup name
    BehaviorReference.BEHAVIOR_ARCHETYPE_PARAMETERS = Some p ->
  new seed = Ok (mk None [] EmptyString seed None)
  /\ select_age_class u agent_id p = Some "no_adult_rides"%string.
Proof.
  intros U0 U1 L. split; [reflexivity|].
  unfold BehaviorReference.BEHAVIOR_ARCHETYPE_PARAMETERS in L.
  cbn [BehaviorReference.lookup] in L.
  repeat match type of L with
         | (if ?c then _ else _) = _ =>
             destruct c;
             [injection L as <-;
              apply age_class_of_adult_only; [exact U0|exact U1|..];
              reflexivity|]
         end.
  discriminate.
Qed.

Lemma table_gives_one_age_class_witness :
  new 42 = Ok Examples.visitor
  /\ select_age_class (9 # 10) 7
       (BehaviorReference.mk 300 false (2 # 10) 180 0 1 0)
     = Some "no_adult_rides"%string.
Proof.
  apply (@table_gives_one_age_class 42 (9 # 10) 7 "activity_favorer");
    [discriminate|reflexivity|reflexivity].
Defined.

End Selection.

(** ** An agent from initialisation to its stay in the park *)

Module Visit.

Import Agent.

Lemma dict_get_set_same (k : string) (v : value) (d : dict) :
  dict_get k (dict_set k v d) = Some v.
Proof.
  induction d as [|[k' v'] d IH]; cbn.
  - now rewrite String.eqb_refl.
  - destruct (String.eqb k' k) eqn:E; cbn; rewrite E; [reflexivity|exact IH].
Qed.

Lemma dict_get_set_other (k k' : string) (v : value) (d : dict) :
  String.eqb k' k = false ->
  dict_get k (dict_set k' v d) = dict_get k d.
Proof.
  intros N. induction d as [|[k0 v0] d IH]; cbn.
  - now rewrite N.
  - destruct (String.eqb_spec k0 k') as [->|E0]; cbn.
    + now rewrite N.
    + now rewrite IH.
Qed.

Ltac dict_get_simpl :=
  repeat first
    [ rewrite dict_get_set_same
    | rewrite dict_get_set_other by reflexivity ].

Lemma scan_in (rng floor : Q) (distribution : list (string * Q))
    (name : string) :
  scan rng floor distribution = Some name ->
  In name (map fst distribution).
Proof.
  revert floor. induction distribution as [|[k w] rest IH]; intros floor.
  - discriminate.
  - cbn. destruct (Qltb rng (floor + w)).
    + intros E. injection E as ->. now left.
    + intros E. right. eapply IH, E.
Qed.

Lemma int_of_nonnegative (x : Q) : 0 <= x -> (0 <= int_of x)%Z.
Proof.
  destruct x as [n d]. unfold Qle, int_of. cbn. intros H.
  apply Z.quot_pos; lia.
Qed.

(** The state [initialize_agent] builds before it selects the archetype. *)
Lemma initialize_agent_returned (rng : Z -> Rng.generator) (u1 u2 : Q)
    (distribution : list (string * Q)) (ability : bool)
    (threshold limit id : Z) (attractions activities : list string)
    (a a' : t) :
  initialize_agent rng u1 u2 distribution ability threshold limit id
    attractions activities a = Returned a' tt ->
  exists name p class x d,
    select_behavior_archetype u1 id distribution = Some name
    /\ BehaviorReference.lookup name
         BehaviorReference.BEHAVIOR_ARCHETYPE_PARAMETERS = Some p
    /\ select_age_class u2 id p = Some class
    /\ d = dict_update
             [ ("arrival_time"%string, VNone);
               ("exit_time"%string, VNone);
               ("within_park"%string, VBool false);
               ("current_location"%string, VNone);
               ("current_action"%string, VNone);
               ("time_spent_at_current_location"%string, VInt 0);
               ("expedited_return_time"%string, VList []);
               ("expedited_pass"%string, VList []);
               ("expedited_pass_ability"%string, VBool ability);
               ("exp_wait_threshold"%string, VInt threshold);
               ("exp_limit"%string, VInt limit) ]
             (state a)
    /\ a' = mk (Some id)
              (dict_set "age_class" (VStr class)
                 (dict_set "activities"
                    (VDict (dict_of_names
                              (VDict [("times_visited"%string, VInt 0);
                                      ("time_spent"%string, VInt 0)])
                              activities))
                    (dict_set "attractions"
                       (VDict (dict_of_names
                                 (VDict [("times_completed"%string, VInt 0)])
                                 attractions))
                       d)))
              (log a) (random_seed a)
              (Some (mk_behavior name (int_of (max_q x 0))
                       (BehaviorReference.allow_repeats p)
                       (BehaviorReference.attraction_preference p)
                       (BehaviorReference.wait_threshold p))).
Proof.
  unfold initialize_agent.
  destruct (select_behavior_archetype u1 id distribution) as [name|] eqn:S;
    [|discriminate].
  destruct (BehaviorReference.lookup name _) as [p|] eqn:L; [|discriminate].
  destruct (select_age_class u2 id p) as [class|] eqn:C; [|discriminate].
  cbn [random_seed set_state state log].
  unfold Rng.default_rng, Rng.normal.
  destruct (random_seed a + id <? 0)%Z; [discriminate|].
  destruct (Qltb _ 0); [discriminate|].
  intros E. injection E as <-.
  do 5 eexists. repeat (split; [reflexivity || eassumption|]).
  reflexivity.
Qed.

(** X16.  Whatever the agent held before, an [initialize_agent] that
    returns leaves it outside the park with no arrival time, no dwell time
    and no passes, with the given ID, an archetype that is a key of both the
    distribution and the table, the table's traits for it, and a stay
    preference that is not negative; log and seed are kept. *)
Theorem initialize_agent_resets_the_visitor (rng : Z -> Rng.generator)
    (u1 u2 : Q) (distribution : list (string * Q)) (ability : bool)
    (threshold limit id : Z) (attractions activities : list string)
    (a a' : t) :
  initialize_agent rng u1 u2 distribution ability threshold limit id
    attractions activities a = Returned a' tt ->
  agent_id a' = Some id
  /\ log a' = log a /\ random_seed a' = random_seed a
  /\ dict_get "arrival_time" (state a') = Some VNone
  /\ dict_get "within_park" (state a') = Some (VBool false)
  /\ dict_get "time_spent_at_current_location" (state a') = Some (VInt 0)
  /\ dict_get "expedited_pass" (state a') = Some (VList [])
  /\ dict_get "expedited_return_time" (state a') = Some (VList [])
  /\ dict_get "exp_limit" (state a') = Some (VInt limit)
  /\ exists b p,
       behavior a' = Some b
       /\ In (archetype b) (map fst distribution)
       /\ BehaviorReference.lookup (archetype b)
            BehaviorReference.BEHAVIOR_ARCHETYPE_PARAMETERS = Some p
       /\ (0 <= stay_time_preference b)%Z
       /\ allow_repeats b = BehaviorReference.allow_repeats p
       /\ attraction_preference b = BehaviorReference.attraction_preference p
       /\ wait_threshold b = BehaviorReference.wait_threshold p.
Proof.
  intros H. apply initialize_agent_returned in H.
  destruct H as (name & p & class & x & d & S & L & C & D & ->).
  subst d. cbn [agent_id log random_seed state behavior].
  cbn [dict_update fold_left fst snd]. dict_get_simpl.
  repeat (split; [reflexivity|]).
  eexists _, p. split; [reflexivity|]. cbn.
  split; [eapply scan_in, S|]. split; [exact L|].
  split; [|auto].
  apply int_of_nonnegative. unfold max_q.
  destruct (Qltb x 0) eqn:E; [apply Qle_refl|].
  apply Qnot_lt_le. intros N. apply Stays.Qltb_lt in N. congruence.
Qed.

Lemma initialize_agent_resets_the_visitor_witness :
  exists a',
    initialize_agent (fun _ mu _ => mu) (1 # 4) (1 # 2)
      [("ride_enthusiast"%string, 1); ("activity_enthusiast"%string, 1)]
      true 30 3 7 [] [] (arrive_at_park 5 Examples.visitor)
    = Returned a' tt
    /\ dict_get "arrival_time" (state a') = Some VNone
    /\ dict_get "within_park" (state a') = Some (VBool false).
Proof.
  eexists. split; [reflexivity|].
  destruct (@initialize_agent_resets_the_visitor (fun _ mu _ => mu)
              (1 # 4) (1 # 2)
              [("ride_enthusiast"%string, 1);
               ("activity_enthusiast"%string, 1)]
              true 30 3 7 [] [] (arrive_at_park 5 Examples.visitor)
              _ eq_refl)
    as (_ & _ & _ & A & W & _).
  split; [exact A|exact W].
Defined.

(** X17.  [decide_to_leave_park] on an agent that was initialised but has
    not arrived raises [TypeError] at every time: the arrival time is still
    [None] and is subtracted from the time. *)
Theorem decide_before_arrival_raises (rng rng' : Z -> Rng.generator)
    (u1 u2 : Q) (distribution : list (string * Q)) (ability : bool)
    (threshold limit id : Z) (attractions activities : list string)
    (a a' : t) (time : Z) :
  initialize_agent rng u1 u2 distribution ability threshold limit id
    attractions activities a = Returned a' tt ->
  decide_to_leave_park rng' time a' = Raised TypeError a'.
Proof.
  intros H. apply initialize_agent_returned in H.
  destruct H as (name & p & class & x & d & S & L & C & D & ->).
  subst d. unfold decide_to_leave_park. cbn [state].
  cbn [dict_update fold_left fst snd]. dict_get_simpl. reflexivity.
Qed.

Lemma decide_before_arrival_raises_witness :
  exists a',
    initialize_agent (fun _ mu _ => mu) (1 # 4) (1 # 2)
      [("ride_enthusiast"%string, 1)] true 30 3 7 [] [] Examples.visitor
    = Returned a' tt
    /\ decide_to_leave_park (fun _ mu _ => mu) 100 a' = Raised TypeError a'.
Proof.
  eexists. split; [reflexivity|].
  apply (@decide_before_arrival_raises (fun _ mu _ => mu)
           (fun _ mu _ => mu) (1 # 4) (1 # 2)
           [("ride_enthusiast"%string, 1)] true 30 3 7 [] []
           Examples.visitor).
  reflexivity.
Defined.

Lemma pass_times_without_pass (k : nat) (a : t) (within pass : value)
    (n : Z) :
  dict_get "within_park" (state a) = Some within ->
  truthy within = true ->
  dict_get "time_spent_at_current_location" (state a) = Some (VInt n) ->
  dict_get "expedited_pass" (state a) = Some pass ->
  truthy pass = false ->
  dict_get "time_spent_at_current_location" (state (pass_times k a))
  = Some (VInt (n + Z.of_nat k))
  /\ (forall key,
        String.eqb "time_spent_at_current_location" key = false ->
        dict_get key (state (pass_times k a)) = dict_get key (state a))
  /\ log (pass_times k a) = log a
  /\ agent_id (pass_times k a) = agent_id a
  /\ behavior (pass_times k a) = behavior a.
Proof.
  revert a n. induction k as [|k IH]; intros a n W TW D P TP.
  - cbn. rewrite Z.add_0_r. auto.
  - cbn [pass_times].
    assert (E : pass_time a
                = Returned
                    (set_state
                       (dict_set "time_spent_at_current_location"
                          (VInt (n + 1)) (state a)) a) tt).
    { unfold pass_time. rewrite W, TW, D. cbn [as_int state set_state].
      rewrite dict_get_set_other by reflexivity. now rewrite P, TP. }
    rewrite E. cbn [state_of].
    destruct (IH (set_state
                    (dict_set "time_spent_at_current_location"
                       (VInt (n + 1)) (state a)) a) (n + 1)%Z)
      as (I1 & I2 & I3 & I4 & I5).
    + cbn [state set_state]. now rewrite dict_get_set_other by reflexivity.
    + exact TW.
    + cbn [state set_state]. apply dict_get_set_same.
    + cbn [state set_state]. now rewrite dict_get_set_other by reflexivity.
    + exact TP.
    + split; [rewrite I1; f_equal; f_equal; lia|].
      split; [|auto].
      intros key N. rewrite (I2 key N). cbn [state set_state].
      now apply dict_get_set_other.
Qed.

(** X18.  An initialised agent that has not arrived is left unchanged by
    [pass_time]; once it has arrived at time [t], [k] calls of [pass_time]
    bring its dwell time to [k] and leave its arrival time, its empty list
    of return times and its log, which ends with the arrival text, as they
    are. *)
Theorem dwell_time_counts_minutes_in_park (rng : Z -> Rng.generator)
    (u1 u2 : Q) (distribution : list (string * Q)) (ability : bool)
    (threshold limit id : Z) (attractions activities : list string)
    (a a1 : t) (time : Z) (k : nat) :
  initialize_agent rng u1 u2 distribution ability threshold limit id
    attractions activities a = Returned a1 tt ->
  let a2 := arrive_at_park_logged time a1 in
  pass_time a1 = Returned a1 tt
  /\ dict_get "time_spent_at_current_location" (state (pass_times k a2))
     = Some (VInt (Z.of_nat k))
  /\ dict_get "arrival_time" (state (pass_times k a2)) = Some (VInt time)
  /\ dict_get "within_park" (state (pass_times k a2)) = Some (VBool true)
  /\ dict_get "expedited_return_time" (state (pass_times k a2))
     = Some (VList [])
  /\ log (pass_times k a2)
     = (log a ++ "Agent arrived at park at time " ++ str time ++ ". ")%string.
Proof.
  intros H. apply initialize_agent_returned in H.
  destruct H as (name & p & class & x & d & S & L & C & D & ->).
  subst d. cbv zeta. split.
  { unfold pass_time. cbn [state].
    cbn [dict_update fold_left fst snd]. dict_get_simpl. reflexivity. }
  match goal with
  | |- context [pass_times k ?a2] =>
      destruct (@pass_times_without_pass k a2 (VBool true) (VList []) 0)
        as (I1 & I2 & I3 & _)
  end.
  - unfold arrive_at_park_logged, arrive_at_park.
    cbn [state set_state]. dict_get_simpl. reflexivity.
  - reflexivity.
  - unfold arrive_at_park_logged, arrive_at_park.
    cbn [state set_state]. dict_get_simpl. reflexivity.
  - unfold arrive_at_park_logged, arrive_at_park.
    cbn [state set_state dict_update fold_left fst snd].
    dict_get_simpl. reflexivity.
  - reflexivity.
  - rewrite I1, !I2, I3 by reflexivity.
    unfold arrive_at_park_logged, arrive_at_park.
    cbn [state set_state log dict_update fold_left fst snd].
    dict_get_simpl. repeat split.
Qed.

Lemma dwell_time_counts_minutes_in_park_witness :
  exists a1,
    initialize_agent (fun _ mu _ => mu) (1 # 4) (1 # 2)
      [("ride_enthusiast"%string, 1)] true 30 3 7 [] [] Examples.visitor
    = Returned a1 tt
    /\ dict_get "time_spent_at_current_location"
         (state (pass_times 3 (arrive_at_park_logged 540 a1)))
       = Some (VInt 3)
    /\ log (pass_times 3 (arrive_at_park_logged 540 a1))
       = "Agent arrived at park at time 540. "%string.
Proof.
  eexists. split; [reflexivity|].
  destruct (@dwell_time_counts_minutes_in_park (fun _ mu _ => mu)
              (1 # 4) (1 # 2) [("ride_enthusiast"%string, 1)]
              true 30 3 7 [] [] Examples.visitor _ 540 3 eq_refl)
    as (_ & D & _ & _ & _ & G).
  split; [exact D|exact G].
Defined.

Lemma decrement_all_ints (ts : list Z) :
  decrement_all (map VInt ts)
  = Some (map VInt (map (fun t => (t - 1)%Z) ts)).
Proof.
  induction ts as [|t ts IH]; cbn.
  - reflexivity.
  - now rewrite IH.
Qed.

(** X19.  While the agent is in the park and holds at least one pass, [k]
    calls of [pass_time] lower every return time by [k] and raise the dwell
    time by [k]. *)
Theorem return_times_count_down (k : nat) (a : t) (within pass : value)
    (n : Z) (ts : list Z) :
  dict_get "within_park" (state a) = Some within ->
  truthy within = true ->
  dict_get "time_spent_at_current_location" (state a) = Some (VInt n) ->
  dict_get "expedited_pass" (state a) = Some pass ->
  truthy pass = true ->
  dict_get "expedited_return_time" (state a) = Some (VList (map VInt ts)) ->
  dict_get "expedited_return_time" (state (pass_times k a))
  = Some (VList (map VInt (map (fun t => (t - Z.of_nat k)%Z) ts)))
  /\ dict_get "time_spent_at_current_location" (state (pass_times k a))
     = Some (VInt (n + Z.of_nat k)).
Proof.
  revert a n ts. induction k as [|k IH]; intros a n ts W TW D P TP R.
  - cbn. rewrite Z.add_0_r, R, D. split; [|reflexivity].
    do 3 f_equal. rewrite <- (map_id ts) at 1. apply map_ext. intros. lia.
  - cbn [pass_times].
    assert (E : pass_time a
                = Returned
                    (set_state
                       (dict_set "expedited_return_time"
                          (VList (map VInt (map (fun t => (t - 1)%Z) ts)))
                          (dict_set "time_spent_at_current_location"
                             (VInt (n + 1)) (state a))) a) tt).
    { unfold pass_time. rewrite W, TW, D. cbn [as_int state set_state].
      rewrite !dict_get_set_other by reflexivity. rewrite P, TP, R.
      cbn [decrement_return_times]. rewrite decrement_all_ints.
      reflexivity. }
    rewrite E. cbn [state_of].
    match goal with
    | |- context [pass_times k ?b] =>
        destruct (IH b (n + 1)%Z (map (fun t => (t - 1)%Z) ts))
          as (I1 & I2)
    end.
    + cbn [state set_state]. now rewrite !dict_get_set_other by reflexivity.
    + exact TW.
    + cbn [state set_state]. rewrite dict_get_set_other by reflexivity.
      apply dict_get_set_same.
    + cbn [state set_state]. now rewrite !dict_get_set_other by reflexivity.
    + exact TP.
    + cbn [state set_state]. apply dict_get_set_same.
    + rewrite I1, I2. split.
      * do 3 f_equal. rewrite map_map. apply map_ext. intros. lia.
      * do 2 f_equal. lia.
Qed.

Lemma return_times_count_down_witness :
  let a :=
    mk (Some 7%Z)
       [("within_park"%string, VBool true);
        ("time_spent_at_current_location"%string, VInt 2);
        ("expedited_pass"%string, VList [VStr "coaster"]);
        ("expedited_return_time"%string, VList [VInt 30])]
       EmptyString 42 None in
  dict_get "expedited_return_time" (state (pass_times 5 a))
  = Some (VList [VInt 25]).
Proof.
  apply (@return_times_count_down 5
           (mk (Some 7%Z)
               [("within_park"%string, VBool true);
                ("time_spent_at_current_location"%string, VInt 2);
                ("expedited_pass"%string, VList [VStr "coaster"]);
                ("expedited_return_time"%string, VList [VInt 30])]
               EmptyString 42 None)
           (VBool true) (VList [VStr "coaster"]) 2 [30%Z]);
    reflexivity.
Defined.

End Visit.
